(** * Autonomous Personal Task Planner Bot: a shallow embedding

    The Python module [autonomous_task_planner.py] is embedded as state-passing
    functions over an explicit [World]: the process environment, the wall
    clock, the language-model and HTTP collaborators and the log.  Python
    exceptions are an explicit outcome ([Raise]), [try]/[except Exception]
    is [try_except], which lets pass what is no instance of [Exception],
    and the dictionaries the agents hand to each other are insertion-ordered
    association lists. *)

From Stdlib Require Import ZArith List String Bool Lia.
Import ListNotations.
Open Scope string_scope.
Open Scope Z_scope.
Set Warnings "-register-all".

(** ** Python values *)

(** The values that flow through the agents' [Dict[str, Any]] results.
    [VFloat us] is a float, kept exactly as the count of its millionths (the
    microseconds of a [timedelta.total_seconds()]); [VIso t] is the string
    [datetime.isoformat()] of the instant [t]; [VData c fs] is an instance of
    the dataclass [c] with fields [fs]. *)
Inductive value : Type :=
| VNone
| VBool (b : bool)
| VInt (n : Z)
| VFloat (us : Z)
| VStr (s : string)
| VIso (t : Z)
| VList (xs : list value)
| VDict (kvs : list (string * value))
| VData (cls : string) (fields : list (string * value)).

Definition dict := list (string * value).

(** Python truth value testing ([bool(v)], [if v:], [not v]). *)
Definition truthy (v : value) : bool :=
  match v with
  | VNone => false
  | VBool b => b
  | VInt n => negb (n =? 0)
  | VFloat us => negb (us =? 0)
  | VStr s => negb (s =? EmptyString)%string
  | VIso _ => true
  | VList xs => match xs with [] => false | _ => true end
  | VDict kvs => match kvs with [] => false | _ => true end
  | VData _ _ => true
  end.

(** [d.get(k)] on the items of a dict: [None] when the key is absent. *)
Fixpoint lookup (k : string) (d : dict) : option value :=
  match d with
  | [] => None
  | (k', v) :: d' => if (k' =? k)%string then Some v else lookup k d'
  end.

(** [d.get(k, default)]. *)
Definition get_default (k : string) (default : value) (d : dict) : value :=
  match lookup k d with Some v => v | None => default end.

(** [d[k] = v]: replaces the value in place when the key exists, appends
    the key otherwise (dicts keep insertion order). *)
Fixpoint store (k : string) (v : value) (d : dict) : dict :=
  match d with
  | [] => [(k, v)]
  | (k', v') :: d' =>
      if (k' =? k)%string then (k', v) :: d' else (k', v') :: store k v d'
  end.

(** [len(v)] for the sized values; [None] where Python raises [TypeError].
    The isoformat string of an instant has 19 characters
    (YYYY-MM-DDTHH:MM:SS) when its microsecond is 0 and 26 otherwise. *)
Definition len (v : value) : option Z :=
  match v with
  | VStr s => Some (Z.of_nat (String.length s))
  | VIso t => Some (if t mod 1000000 =? 0 then 19 else 26)
  | VList xs => Some (Z.of_nat (List.length xs))
  | VDict kvs => Some (Z.of_nat (List.length kvs))
  | _ => None
  end.

(** [type(v).__name__]. *)
Definition type_name (v : value) : string :=
  match v with
  | VNone => "NoneType"
  | VBool _ => "bool"
  | VInt _ => "int"
  | VFloat _ => "float"
  | VStr _ => "str"
  | VIso _ => "str"
  | VList _ => "list"
  | VDict _ => "dict"
  | VData cls _ => cls
  end.

(** The first character of the isoformat string of the instant [t],
    counted in microseconds from 1970-01-01T00:00:00: the thousands of its
    year. *)
Definition iso_first_char (t : Z) : string :=
  if t <? -30610224000000000 then "0"
  else if t <? 946684800000000 then "1"
  else if t <? 32503680000000000 then "2"
  else if t <? 64060588800000000 then "3"
  else if t <? 95617584000000000 then "4"
  else if t <? 127174492800000000 then "5"
  else if t <? 158731488000000000 then "6"
  else if t <? 190288396800000000 then "7"
  else if t <? 221845392000000000 then "8"
  else "9".

(** ** Exceptions *)

(** An instance of a subclass of Python's [Exception], the class every
    handler of the module names: its class and its [str(e)]. *)
Record exn : Type := mk_exn { exn_class : string; exn_str : string }.

Definition ValueError (msg : string) : exn := mk_exn "ValueError" msg.
(** [str(KeyError(k))] is [repr(k)]: the key between quotes. *)
Definition KeyError (k : string) : exn := mk_exn "KeyError" ("'" ++ k ++ "'").
Definition TypeError (msg : string) : exn := mk_exn "TypeError" msg.
Definition IndexError (msg : string) : exn := mk_exn "IndexError" msg.
Definition AttributeError (msg : string) : exn := mk_exn "AttributeError" msg.

(** What a [raise] raises: an instance of [Exception], or an instance of
    another subclass of [BaseException] ([KeyboardInterrupt], [SystemExit],
    [GeneratorExit], [asyncio.CancelledError]), which [except Exception]
    does not catch. *)
Inductive raised : Type :=
| Exception (e : exn)
| NonException (cls : string) (msg : string).
Coercion Exception : exn >-> raised.

Definition KeyboardInterrupt : raised :=
  NonException "KeyboardInterrupt" EmptyString.

(** The outcome of evaluating an expression of the module: its value, or
    the instance of [Exception] the evaluation raises. *)
Inductive res (A : Type) : Type :=
| Returns (a : A)
| Raises (e : exn).
Arguments Returns {A} a.
Arguments Raises {A} e.

(** The outcome of running a function of the module. *)
Inductive outcome (A : Type) : Type :=
| Ok (a : A)
| Raise (e : raised).
Arguments Ok {A} a.
Arguments Raise {A} e.

(** ** The world outside the module *)

Inductive level : Type := INFO | WARNING | ERROR.

(** One record emitted through [logging]: the logger's name, the level, the
    literal text of the f-string and the values interpolated into it. *)
Record LogRecord : Type :=
  mk_log { lr_logger : string; lr_level : level;
           lr_text : string; lr_args : list value }.

(** [times], [gemini] and [http] are the successive readings of
    [datetime.now()], outcomes of the requests to the language model and of
    the weather request; [ticks], [gemini_calls] and [http_calls] count the
    readings consumed so far.  The outcome [gemini w k] of a request is the
    text of the answer, or the exception raised by [generate_content] or by
    reading [.text] of the response it returned; [response_blocked w k]
    tells, of a failure, that [generate_content] returned and it is
    [.text] that raises.  The failures of the collaborators are instances
    of [Exception]. *)
Record World : Type := mk_world {
  environ : list (string * string);
  files : string -> option value;
  cron : option exn;
  times : nat -> Z;
  gemini : nat -> exn + string;
  response_blocked : nat -> bool;
  http : nat -> exn + value;
  ticks : nat;
  gemini_calls : nat;
  http_calls : nat;
  genai_key : value;
  log : list LogRecord
}.

Definition with_ticks (n : nat) (w : World) : World :=
  mk_world (environ w) (files w) (cron w) (times w) (gemini w)
           (response_blocked w) (http w)
           n (gemini_calls w) (http_calls w) (genai_key w) (log w).
Definition with_gemini_calls (n : nat) (w : World) : World :=
  mk_world (environ w) (files w) (cron w) (times w) (gemini w)
           (response_blocked w) (http w)
           (ticks w) n (http_calls w) (genai_key w) (log w).
Definition with_http_calls (n : nat) (w : World) : World :=
  mk_world (environ w) (files w) (cron w) (times w) (gemini w)
           (response_blocked w) (http w)
           (ticks w) (gemini_calls w) n (genai_key w) (log w).
Definition with_genai_key (k : value) (w : World) : World :=
  mk_world (environ w) (files w) (cron w) (times w) (gemini w)
           (response_blocked w) (http w)
           (ticks w) (gemini_calls w) (http_calls w) k (log w).
Definition with_log (l : list LogRecord) (w : World) : World :=
  mk_world (environ w) (files w) (cron w) (times w) (gemini w)
           (response_blocked w) (http w)
           (ticks w) (gemini_calls w) (http_calls w) (genai_key w) l.

(** ** The state-and-exception monad *)

Definition M (S A : Type) : Type := S -> outcome A * S.

Definition ret {S A} (a : A) : M S A := fun s => (Ok a, s).

Definition raise {S A} (e : raised) : M S A := fun s => (Raise e, s).

Definition bind {S A B} (c : M S A) (k : A -> M S B) : M S B :=
  fun s => match c s with
           | (Ok a, s') => k a s'
           | (Raise e, s') => (Raise e, s')
           end.

(** [try: body  except Exception as e: handler e]: what the body raises
    that is no instance of [Exception] goes on to the caller. *)
Definition try_except {S A} (body : M S A) (handler : exn -> M S A) : M S A :=
  fun s => match body s with
           | (Ok a, s') => (Ok a, s')
           | (Raise (Exception e), s') => handler e s'
           | (Raise (NonException cls msg), s') =>
               (Raise (NonException cls msg), s')
           end.

(** An expression evaluated inside a function. *)
Definition of_res {S A} (r : res A) : M S A :=
  fun s => (match r with
            | Returns a => Ok a
            | Raises e => Raise e
            end, s).

Declare Scope monad_scope.
Delimit Scope monad_scope with monad.
Notation "x <- c ;; k" := (bind c (fun x => k))
  (at level 61, c at next level, right associativity) : monad_scope.
Notation "c ;;; k" := (bind c (fun _ => k))
  (at level 61, right associativity) : monad_scope.
Open Scope monad_scope.

(** *** Primitive effects *)

Fixpoint env_lookup (name : string) (e : list (string * string)) : option string :=
  match e with
  | [] => None
  | (k, v) :: e' => if (k =? name)%string then Some v else env_lookup name e'
  end.

(** [os.getenv(name)]: the variable's string, or [None]. *)
Definition getenv (name : string) : M World value :=
  fun w => (Ok (match env_lookup name (environ w) with
                | Some v => VStr v
                | None => VNone
                end), w).

(** [datetime.now()]. *)
Definition now : M World Z :=
  fun w => (Ok (times w (ticks w)), with_ticks (S (ticks w)) w).

(** [logging.getLogger(name).<level>(text.format(args))]. *)
Definition emit (name : string) (l : level) (text : string) (args : list value)
  : M World unit :=
  fun w => (Ok tt, with_log (log w ++ [mk_log name l text args]) w).

(** [genai.configure(api_key=key)]. *)
Definition genai_configure (key : value) : M World unit :=
  fun w => (Ok tt, with_genai_key key w).

(** [client.generate_content(prompt).text], where nothing with an effect
    stands between the call and the reading of [.text]: the prompt goes to
    the collaborator, whose answer (or failure) is the next outcome of the
    oracle. *)
Definition generate_content (prompt : list value) : M World string :=
  fun w => (match gemini w (gemini_calls w) with
            | inl e => Raise e
            | inr text => Ok text
            end, with_gemini_calls (S (gemini_calls w)) w).

(** [client.generate_content(prompt)] alone: it raises, or returns a
    response whose [.text] is still to be read. *)
Definition generate_response (prompt : list value) : M World (exn + string) :=
  fun w => (match gemini w (gemini_calls w) with
            | inl e => if response_blocked w (gemini_calls w)
                       then Ok (inl e) else Raise e
            | inr text => Ok (inr text)
            end, with_gemini_calls (S (gemini_calls w)) w).

(** [response.text]. *)
Definition response_text (response : exn + string) : res string :=
  match response with
  | inl e => Raises e
  | inr text => Returns text
  end.

(** [requests.get(url, timeout=10)], [raise_for_status()] and [json()]. *)
Definition requests_get_json (url : list value) : M World value :=
  fun w => (match http w (http_calls w) with
            | inl e => Raise e
            | inr body => Ok body
            end, with_http_calls (S (http_calls w)) w).

Definition not_subscriptable (v : value) : exn :=
  TypeError ("'" ++ type_name v ++ "' object is not subscriptable").

(** [v[k]] with a string key. *)
Definition getitem (v : value) (k : string) : res value :=
  match v with
  | VDict d => match lookup k d with
               | Some x => Returns x
               | None => Raises (KeyError k)
               end
  | VList _ =>
      Raises (TypeError "list indices must be integers or slices, not str")
  | VStr _ | VIso _ =>
      Raises (TypeError "string indices must be integers, not 'str'")
  | _ => Raises (not_subscriptable v)
  end.

(** [v[0]]. *)
Definition getitem0 (v : value) : res value :=
  match v with
  | VList (x :: _) => Returns x
  | VList [] => Raises (IndexError "list index out of range")
  | VStr (String c _) => Returns (VStr (String c EmptyString))
  | VStr EmptyString => Raises (IndexError "string index out of range")
  | VIso t => Returns (VStr (iso_first_char t))
  | VDict _ => Raises (mk_exn "KeyError" "0")
  | _ => Raises (not_subscriptable v)
  end.

Definition no_attribute_get (v : value) : exn :=
  AttributeError ("'" ++ type_name v ++ "' object has no attribute 'get'").

(** [v.get(k, default)]: only a dict has the method. *)
Definition get_method (v : value) (k : string) (default : value) : res value :=
  match v with
  | VDict d => Returns (get_default k default d)
  | _ => Raises (no_attribute_get v)
  end.

(** [len(v)] as Python evaluates it. *)
Definition py_len (v : value) : res Z :=
  match len v with
  | Some n => Returns n
  | None => Raises (TypeError
                      ("object of type '" ++ type_name v ++ "' has no len()"))
  end.

(** [json.dumps(v)] without [default=]: an object that is not a JSON value
    (here, a dataclass instance) makes it raise [TypeError]. *)
Fixpoint serializable (v : value) : bool :=
  match v with
  | VData _ _ => false
  | VList xs => forallb serializable xs
  | VDict kvs => forallb (fun kv => serializable (snd kv)) kvs
  | _ => true
  end.

(** The class of the first object [json.dumps] cannot render, in the
    order it goes through the value. *)
Fixpoint culprit (v : value) : option string :=
  match v with
  | VData cls _ => Some cls
  | VList xs =>
      (fix first (l : list value) : option string :=
         match l with
         | [] => None
         | x :: l' => match culprit x with
                      | Some cls => Some cls
                      | None => first l'
                      end
         end) xs
  | VDict kvs =>
      (fix first (l : list (string * value)) : option string :=
         match l with
         | [] => None
         | (_, x) :: l' => match culprit x with
                           | Some cls => Some cls
                           | None => first l'
                           end
         end) kvs
  | _ => None
  end.

Definition not_serializable (v : value) : exn :=
  TypeError ("Object of type "
             ++ match culprit v with Some cls => cls | None => EmptyString end
             ++ " is not JSON serializable").

(** [json.dumps(v, indent=2)] and [json.dumps(v, default=str, indent=2)]:
    the rendered text stands in the prompt as the value it renders. *)
Definition json_dumps (default_str : bool) (v : value) : res value :=
  if default_str || serializable v then Returns v
  else Raises (not_serializable v).

(** [x == s] for a string literal [s]. *)
Definition str_eq (v : value) (s : string) : bool :=
  match v with
  | VStr s' => (s' =? s)%string
  | _ => false
  end.

Definition length_Z {A} (l : list A) : Z := Z.of_nat (List.length l).

(** ** Data classes *)

Module TaskData.
Record t : Type := mk {
  id : string;
  title : string;
  description : string;
  priority : Z;
  deadline : Z;
  status : string;
  created_at : Z;
  updated_at : Z;
  metadata : dict
}.
End TaskData.

Module WeatherData.
Record t : Type := mk {
  temperature : value;
  condition : value;
  humidity : value;
  wind_speed : value;
  forecast : value;
  timestamp : Z
}.

(** The instance as it sits inside a dict handed on to the next stage. *)
Definition to_value (w : t) : value :=
  VData "WeatherData"
    [("temperature", temperature w); ("condition", condition w);
     ("humidity", humidity w); ("wind_speed", wind_speed w);
     ("forecast", forecast w); ("timestamp", VIso (timestamp w))].
End WeatherData.

(** ** BaseAgent *)

Module BaseAgent.
Record t : Type := mk {
  config : value;
  logger : string;
  session_id : Z
}.

(** [BaseAgent.__init__], reached through [super().__init__(config)] from
    the class named [cls]. *)
Definition __init__ (cls : string) (config : value) : M World t :=
  stamp <- now ;;
  ret (mk config cls stamp).

Definition log_performance (self : t) (operation : string) (duration : Z)
    (success : bool) : M World unit :=
  emit (logger self) INFO
       "Operation: {operation}, Duration: {duration:.2f}s, Success: {success}"
       [VStr operation; VFloat duration; VBool success].
End BaseAgent.

Definition gemini_pro : value :=
  VData "GenerativeModel" [("model_name", VStr "gemini-pro")].

Definition google_calendar : value :=
  VDict [("credentials", VStr "google_calendar_credentials")].

Definition success : value := VStr "success".

(** The dict every [execute] returns from its [except Exception as e]. *)
Definition error_result (e : exn) : dict :=
  [("status", VStr "error"); ("message", VStr (exn_str e))].

(** ** WF4: ReviewerLearnerAgent *)

Module ReviewerLearnerAgent.
Record t : Type := mk {
  base : BaseAgent.t;
  gemini_client : value;
  notion_client : value;
  calendar_service : value
}.

Definition _initialize_gemini : M World value :=
  api_key <- getenv "GEMINI_API_KEY" ;;
  if negb (truthy api_key)
  then raise (ValueError "GEMINI_API_KEY environment variable required")
  else genai_configure api_key ;;; ret gemini_pro.

Definition _initialize_notion : M World value :=
  token <- getenv "NOTION_API_TOKEN" ;;
  ret (VDict [("token", token)]).

Definition _initialize_calendar : M World value := ret google_calendar.

Definition __init__ (config : value) : M World t :=
  b <- BaseAgent.__init__ "ReviewerLearnerAgent" config ;;
  g <- _initialize_gemini ;;
  n <- _initialize_notion ;;
  c <- _initialize_calendar ;;
  ret (mk b g n c).

(** [execute] calls its five steps through [self]; the section takes them
    as the methods [self] resolves them to. *)
Section Dispatch.
Variable _fetch_completed_tasks : t -> M World (list TaskData.t).
Variable _analyze_patterns : t -> list TaskData.t -> M World (list value).
Variable _generate_rules : t -> list value -> M World (list value).
Variable _store_rules : t -> list value -> M World bool.
Variable _generate_feedback : t -> list value -> M World value.

(** The [try] block. *)
Definition execute_body (self : t) (start_time : Z) : M World dict :=
  completed_tasks <- _fetch_completed_tasks self ;;
  patterns <- _analyze_patterns self completed_tasks ;;
  rules <- _generate_rules self patterns ;;
  _store_rules self rules ;;;
  feedback <- _generate_feedback self patterns ;;
  stop <- now ;;
  let duration := stop - start_time in
  BaseAgent.log_performance (base self) "reviewer_execution" duration true ;;;
  ret [("status", success);
       ("completed_tasks_analyzed", VInt (length_Z completed_tasks));
       ("patterns_identified", VInt (length_Z patterns));
       ("rules_generated", VInt (length_Z rules));
       ("feedback", feedback);
       ("execution_time", VFloat duration)].

(** The [except Exception as e] block. *)
Definition execute_handler (self : t) (start_time : Z) (e : exn) : M World dict :=
  stop <- now ;;
  let duration := stop - start_time in
  BaseAgent.log_performance (base self) "reviewer_execution" duration false ;;;
  emit (BaseAgent.logger (base self)) ERROR "Reviewer agent failed: {e}"
       [VStr (exn_str e)] ;;;
  ret (error_result e).

Definition execute_via (self : t) : M World dict :=
  start_time <- now ;;
  try_except (execute_body self start_time) (execute_handler self start_time).
End Dispatch.

Definition _fetch_completed_tasks (self : t) : M World (list TaskData.t) :=
  emit (BaseAgent.logger (base self)) INFO
       "Fetching completed tasks from Google Calendar" [] ;;;
  ret [].

Definition task_summary (task : TaskData.t) : value :=
  VDict [("title", VStr (TaskData.title task));
         ("completion_time", VIso (TaskData.updated_at task))].

Definition _analyze_patterns (self : t) (tasks : list TaskData.t)
  : M World (list value) :=
  emit (BaseAgent.logger (base self)) INFO
       "Analyzing patterns for {len(tasks)} tasks with Gemini AI"
       [VInt (length_Z tasks)] ;;;
  try_except
    (dumped <- of_res (json_dumps false (VList (map task_summary tasks))) ;;
     response <- generate_content [dumped] ;;
     ret [VDict [("pattern_type", VStr "productivity");
                 ("insights", VStr response)]])
    (fun e =>
       emit (BaseAgent.logger (base self)) ERROR "Pattern analysis failed: {e}"
            [VStr (exn_str e)] ;;;
       ret []).

Definition _generate_rules (self : t) (patterns : list value)
  : M World (list value) :=
  emit (BaseAgent.logger (base self)) INFO
       "Generating intelligent rules from patterns" [] ;;;
  try_except
    (dumped <- of_res (json_dumps false (VList patterns)) ;;
     response <- generate_content [dumped] ;;
     ret [VDict [("rule_type", VStr "scheduling"); ("rule", VStr response)]])
    (fun e =>
       emit (BaseAgent.logger (base self)) ERROR "Rule generation failed: {e}"
            [VStr (exn_str e)] ;;;
       ret []).

Definition _store_rules (self : t) (rules : list value) : M World bool :=
  emit (BaseAgent.logger (base self)) INFO
       "Storing {len(rules)} rules in Notion database"
       [VInt (length_Z rules)] ;;;
  ret true.

Definition _generate_feedback (self : t) (patterns : list value)
  : M World value :=
  try_except
    (dumped <- of_res (json_dumps false (VList patterns)) ;;
     response <- generate_content [dumped] ;;
     ret (VStr response))
    (fun e =>
       emit (BaseAgent.logger (base self)) ERROR "Feedback generation failed: {e}"
            [VStr (exn_str e)] ;;;
       ret (VStr "Unable to generate feedback at this time.")).

(** [ReviewerLearnerAgent.execute]: [execute_via] at the class's own
    methods. *)
Definition execute : t -> M World dict :=
  execute_via _fetch_completed_tasks _analyze_patterns _generate_rules
              _store_rules _generate_feedback.
End ReviewerLearnerAgent.

(** ** WF1: CollectorAgent *)

Module CollectorAgent.
Record t : Type := mk {
  base : BaseAgent.t;
  weather_api_key : value;
  calendar_service : value;
  notion_client : value;
  gemini_client : value
}.

Definition _initialize_calendar : M World value := ret google_calendar.

Definition _initialize_notion : M World value :=
  token <- getenv "NOTION_API_TOKEN" ;;
  ret (VDict [("token", token)]).

Definition _initialize_gemini : M World value :=
  api_key <- getenv "GEMINI_API_KEY" ;;
  if negb (truthy api_key)
  then raise (ValueError "GEMINI_API_KEY required")
  else genai_configure api_key ;;; ret gemini_pro.

Definition __init__ (config : value) : M World t :=
  b <- BaseAgent.__init__ "CollectorAgent" config ;;
  k <- getenv "OPENWEATHER_API_KEY" ;;
  c <- _initialize_calendar ;;
  n <- _initialize_notion ;;
  g <- _initialize_gemini ;;
  ret (mk b k c n g).

Definition weather_value (w : option WeatherData.t) : value :=
  match w with
  | Some d => WeatherData.to_value d
  | None => VNone
  end.

Section Dispatch.
Variable _fetch_calendar_events : t -> M World (list value).
Variable _fetch_weather_data : t -> M World (option WeatherData.t).
Variable _fetch_notion_tasks : t -> M World (list value).
Variable _structure_data : t -> dict -> M World dict.
Variable _prepare_clean_data : t -> dict -> M World dict.

Definition execute_body (self : t) (start_time : Z) : M World dict :=
  calendar_events <- _fetch_calendar_events self ;;
  weather_data <- _fetch_weather_data self ;;
  notion_tasks <- _fetch_notion_tasks self ;;
  structured_data <- _structure_data self
      [("calendar_events", VList calendar_events);
       ("weather_data", weather_value weather_data);
       ("notion_tasks", VList notion_tasks)] ;;
  clean_data <- _prepare_clean_data self structured_data ;;
  stop <- now ;;
  let duration := stop - start_time in
  BaseAgent.log_performance (base self) "collector_execution" duration true ;;;
  ret [("status", success);
       ("calendar_events", VInt (length_Z calendar_events));
       ("weather_updated", VBool (truthy (weather_value weather_data)));
       ("notion_tasks", VInt (length_Z notion_tasks));
       ("structured_data", VDict clean_data);
       ("execution_time", VFloat duration)].

Definition execute_handler (self : t) (start_time : Z) (e : exn) : M World dict :=
  stop <- now ;;
  let duration := stop - start_time in
  BaseAgent.log_performance (base self) "collector_execution" duration false ;;;
  emit (BaseAgent.logger (base self)) ERROR "Collector agent failed: {e}"
       [VStr (exn_str e)] ;;;
  ret (error_result e).

Definition execute_via (self : t) : M World dict :=
  start_time <- now ;;
  try_except (execute_body self start_time) (execute_handler self start_time).
End Dispatch.

Definition _fetch_calendar_events (self : t) : M World (list value) :=
  emit (BaseAgent.logger (base self)) INFO "Fetching new calendar events" [] ;;;
  ret [].

Definition _fetch_weather_data (self : t) : M World (option WeatherData.t) :=
  if negb (truthy (weather_api_key self))
  then emit (BaseAgent.logger (base self)) WARNING
            "Weather API key not configured" [] ;;;
       ret None
  else
    try_except
      (data <- requests_get_json [VStr "New York"; weather_api_key self] ;;
       main <- of_res (getitem data "main") ;;
       temp <- of_res (getitem main "temp") ;;
       weather0 <- of_res (getitem data "weather") ;;
       first <- of_res (getitem0 weather0) ;;
       descr <- of_res (getitem first "description") ;;
       hum <- of_res (getitem main "humidity") ;;
       wind <- of_res (getitem data "wind") ;;
       speed <- of_res (getitem wind "speed") ;;
       weather1 <- of_res (getitem data "weather") ;;
       first1 <- of_res (getitem0 weather1) ;;
       fc <- of_res (getitem first1 "main") ;;
       stamp <- now ;;
       let weather := WeatherData.mk temp descr hum speed fc stamp in
       emit (BaseAgent.logger (base self)) INFO
            "Weather data fetched: {weather.temperature}C, {weather.condition}"
            [temp; descr] ;;;
       ret (Some weather))
      (fun e =>
         emit (BaseAgent.logger (base self)) ERROR
              "Failed to fetch weather data: {e}" [VStr (exn_str e)] ;;;
         ret None).

Definition _fetch_notion_tasks (self : t) : M World (list value) :=
  emit (BaseAgent.logger (base self)) INFO
       "Fetching tasks from Notion database" [] ;;;
  ret [].

Definition _structure_data (self : t) (raw_data : dict) : M World dict :=
  emit (BaseAgent.logger (base self)) INFO "Structuring data with Gemini AI" [] ;;;
  try_except
    (dumped <- of_res (json_dumps true (VDict raw_data)) ;;
     response <- generate_content [dumped] ;;
     ret [("structured", VBool true); ("ai_response", VStr response)])
    (fun e =>
       emit (BaseAgent.logger (base self)) ERROR "Data structuring failed: {e}"
            [VStr (exn_str e)] ;;;
       ret raw_data).

Definition _prepare_clean_data (self : t) (structured_data : dict)
  : M World dict :=
  emit (BaseAgent.logger (base self)) INFO
       "Preparing clean data feed for Planner Agent" [] ;;;
  stamp <- now ;;
  ret [("timestamp", VIso stamp);
       ("data_quality", VStr "high");
       ("ready_for_planning", VBool true);
       ("structured_data", VDict structured_data)].

Definition execute : t -> M World dict :=
  execute_via _fetch_calendar_events _fetch_weather_data _fetch_notion_tasks
              _structure_data _prepare_clean_data.
End CollectorAgent.

(** ** ConflictDetector *)

Module ConflictDetector.
(** [detect_conflicts]: the list [conflicts] is created empty and returned
    as it is. *)
Definition detect_conflicts (plan : dict) : list value :=
  let conflicts := [] in
  conflicts.

(** A detector object, as [PlannerAgent] holds it in [self.conflict_detector]
    and calls it: its [detect_conflicts] method. *)
Definition obj : Type := dict -> M World (list value).

(** [ConflictDetector()]. *)
Definition new : obj := fun plan => ret (detect_conflicts plan).
End ConflictDetector.

(** ** WF2: PlannerAgent *)

Module PlannerAgent.
Record t : Type := mk {
  base : BaseAgent.t;
  gemini_client : value;
  conflict_detector : ConflictDetector.obj;
  priority_weights : value
}.

Definition _initialize_gemini : M World value :=
  api_key <- getenv "GEMINI_API_KEY" ;;
  if negb (truthy api_key)
  then raise (ValueError "GEMINI_API_KEY required")
  else genai_configure api_key ;;; ret gemini_pro.

Definition default_priority_weights : value :=
  VDict [("deadline", VFloat 400000); ("importance", VFloat 300000);
         ("duration", VFloat 200000); ("user_preference", VFloat 100000)].

Definition __init__ (config : value) : M World t :=
  b <- BaseAgent.__init__ "PlannerAgent" config ;;
  g <- _initialize_gemini ;;
  weights <- of_res (get_method config "priority_weights"
                                default_priority_weights) ;;
  ret (mk b g ConflictDetector.new weights).

Section Dispatch.
Variable _draft_plan : t -> dict -> M World dict.
Variable _resolve_conflicts : t -> dict -> list value -> M World dict.
Variable _apply_learned_rules : t -> dict -> dict -> M World dict.
Variable _approve_plan : t -> dict -> M World dict.

Definition execute_body (self : t) (input_data : dict) (start_time : Z)
  : M World dict :=
  initial_plan <- _draft_plan self input_data ;;
  conflicts <- conflict_detector self initial_plan ;;
  final_plan <-
    (if truthy (VList conflicts)
     then emit (BaseAgent.logger (base self)) INFO
               "Conflicts detected: {len(conflicts)}"
               [VInt (length_Z conflicts)] ;;;
          _resolve_conflicts self initial_plan conflicts
     else emit (BaseAgent.logger (base self)) INFO "No conflicts detected" [] ;;;
          ret initial_plan) ;;
  optimized_plan <- _apply_learned_rules self final_plan input_data ;;
  approved_plan <- _approve_plan self optimized_plan ;;
  stop <- now ;;
  let duration := stop - start_time in
  BaseAgent.log_performance (base self) "planner_execution" duration true ;;;
  n_tasks <- of_res (py_len (get_default "tasks" (VList []) approved_plan)) ;;
  ret [("status", success);
       ("plan_approved", VBool true);
       ("conflicts_resolved", VInt (length_Z conflicts));
       ("optimized_tasks", VInt n_tasks);
       ("final_plan", VDict approved_plan);
       ("execution_time", VFloat duration)].

Definition execute_handler (self : t) (start_time : Z) (e : exn) : M World dict :=
  stop <- now ;;
  let duration := stop - start_time in
  BaseAgent.log_performance (base self) "planner_execution" duration false ;;;
  emit (BaseAgent.logger (base self)) ERROR "Planner agent failed: {e}"
       [VStr (exn_str e)] ;;;
  ret (error_result e).

Definition execute_via (self : t) (input_data : dict) : M World dict :=
  start_time <- now ;;
  try_except (execute_body self input_data start_time)
             (execute_handler self start_time).
End Dispatch.

Definition _draft_plan (self : t) (input_data : dict) : M World dict :=
  emit (BaseAgent.logger (base self)) INFO "Drafting intelligent plan with AI" [] ;;;
  try_except
    (dumped <- of_res (json_dumps true (VDict input_data)) ;;
     response <- generate_response [dumped] ;;
     stamp <- now ;;
     text <- of_res (response_text response) ;;
     ret [("plan_type", VStr "daily");
          ("created_at", VIso stamp);
          ("ai_generated", VBool true);
          ("plan_details", VStr text);
          ("tasks", VList [])])
    (fun e =>
       emit (BaseAgent.logger (base self)) ERROR "Plan drafting failed: {e}"
            [VStr (exn_str e)] ;;;
       ret (error_result e)).

Definition _resolve_conflicts (self : t) (plan : dict) (conflicts : list value)
  : M World dict :=
  emit (BaseAgent.logger (base self)) INFO
       "Resolving {len(conflicts)} conflicts with AI"
       [VInt (length_Z conflicts)] ;;;
  try_except
    (dumped_plan <- of_res (json_dumps true (VDict plan)) ;;
     dumped_conflicts <- of_res (json_dumps false (VList conflicts)) ;;
     response <- generate_content [dumped_plan; dumped_conflicts] ;;
     let resolved_plan := plan in
     let resolved_plan :=
       store "conflicts_resolved" (VInt (length_Z conflicts)) resolved_plan in
     let resolved_plan :=
       store "resolution_details" (VStr response) resolved_plan in
     stamp <- now ;;
     let resolved_plan := store "revised_at" (VIso stamp) resolved_plan in
     ret resolved_plan)
    (fun e =>
       emit (BaseAgent.logger (base self)) ERROR "Conflict resolution failed: {e}"
            [VStr (exn_str e)] ;;;
       ret plan).

Definition _apply_learned_rules (self : t) (plan : dict) (context : dict)
  : M World dict :=
  emit (BaseAgent.logger (base self)) INFO
       "Applying learned rules to optimize plan" [] ;;;
  let optimized_plan := plan in
  let optimized_plan := store "optimization_applied" (VBool true) optimized_plan in
  let optimized_plan :=
    store "priority_weights" (priority_weights self) optimized_plan in
  ret optimized_plan.

Definition _approve_plan (self : t) (plan : dict) : M World dict :=
  emit (BaseAgent.logger (base self)) INFO "Approving final optimized plan" [] ;;;
  let approved_plan := plan in
  let approved_plan := store "approved" (VBool true) approved_plan in
  stamp <- now ;;
  let approved_plan := store "approved_at" (VIso stamp) approved_plan in
  let approved_plan := store "ready_for_execution" (VBool true) approved_plan in
  ret approved_plan.

Definition execute : t -> dict -> M World dict :=
  execute_via _draft_plan _resolve_conflicts _apply_learned_rules _approve_plan.
End PlannerAgent.

(** ** WF3: ExecutorAgent *)

Module ExecutorAgent.
Record t : Type := mk {
  base : BaseAgent.t;
  calendar_service : value;
  notion_client : value;
  telegram_bot : value
}.

Definition _initialize_calendar : M World value := ret google_calendar.

Definition _initialize_notion : M World value :=
  token <- getenv "NOTION_API_TOKEN" ;;
  ret (VDict [("token", token)]).

Definition _initialize_telegram (b : BaseAgent.t) : M World value :=
  token <- getenv "TELEGRAM_BOT_TOKEN" ;;
  if negb (truthy token)
  then emit (BaseAgent.logger b) WARNING "Telegram bot token not configured" [] ;;;
       ret VNone
  else ret (VDict [("token", token)]).

Definition __init__ (config : value) : M World t :=
  b <- BaseAgent.__init__ "ExecutorAgent" config ;;
  c <- _initialize_calendar ;;
  n <- _initialize_notion ;;
  tg <- _initialize_telegram b ;;
  ret (mk b c n tg).

Section Dispatch.
Variable _update_calendar_events : t -> value -> M World dict.
Variable _update_notion_tasks : t -> value -> M World dict.
Variable _send_notifications : t -> value -> M World dict.
Variable _schedule_reminders : t -> value -> M World dict.

Definition execute_body (self : t) (approved_plan : value) (start_time : Z)
  : M World dict :=
  calendar_results <- _update_calendar_events self approved_plan ;;
  notion_results <- _update_notion_tasks self approved_plan ;;
  notification_results <- _send_notifications self approved_plan ;;
  reminder_results <- _schedule_reminders self approved_plan ;;
  stop <- now ;;
  let duration := stop - start_time in
  BaseAgent.log_performance (base self) "executor_execution" duration true ;;;
  ret [("status", success);
       ("calendar_events_created", get_default "created" (VInt 0) calendar_results);
       ("notion_tasks_updated", get_default "updated" (VInt 0) notion_results);
       ("notifications_sent", get_default "sent" (VInt 0) notification_results);
       ("reminders_scheduled", get_default "scheduled" (VInt 0) reminder_results);
       ("execution_time", VFloat duration)].

Definition execute_handler (self : t) (start_time : Z) (e : exn) : M World dict :=
  stop <- now ;;
  let duration := stop - start_time in
  BaseAgent.log_performance (base self) "executor_execution" duration false ;;;
  emit (BaseAgent.logger (base self)) ERROR "Executor agent failed: {e}"
       [VStr (exn_str e)] ;;;
  ret (error_result e).

Definition execute_via (self : t) (approved_plan : value) : M World dict :=
  start_time <- now ;;
  try_except (execute_body self approved_plan start_time)
             (execute_handler self start_time).
End Dispatch.

Definition _update_calendar_events (self : t) (plan : value) : M World dict :=
  emit (BaseAgent.logger (base self)) INFO
       "Creating/updating Google Calendar events" [] ;;;
  ret [("created", VInt 5); ("updated", VInt 3)].

Definition _update_notion_tasks (self : t) (plan : value) : M World dict :=
  emit (BaseAgent.logger (base self)) INFO "Updating Notion task statuses" [] ;;;
  ret [("updated", VInt 8)].

(** [_create_plan_summary]: the four values interpolated into the summary
    text, in the order the f-string evaluates them. *)
Definition _create_plan_summary (self : t) (plan : value) : res (list value) :=
  match get_method plan "approved" (VBool false) with
  | Raises e => Raises e
  | Returns approved =>
  match get_method plan "approved_at" (VStr "Unknown") with
  | Raises e => Raises e
  | Returns approved_at =>
  match get_method plan "tasks" (VList []) with
  | Raises e => Raises e
  | Returns tasks =>
  match py_len tasks with
  | Raises e => Raises e
  | Returns n_tasks =>
  match get_method plan "conflicts_resolved" (VInt 0) with
  | Raises e => Raises e
  | Returns resolved => Returns [approved; approved_at; VInt n_tasks; resolved]
  end end end end end.

Definition _send_notifications (self : t) (plan : value) : M World dict :=
  if negb (truthy (telegram_bot self))
  then emit (BaseAgent.logger (base self)) WARNING
            "Telegram bot not configured, skipping notifications" [] ;;;
       ret [("sent", VInt 0)]
  else
    emit (BaseAgent.logger (base self)) INFO "Sending Telegram notifications" [] ;;;
    try_except
      (summary <- of_res (_create_plan_summary self plan) ;;
       ret [("sent", VInt 1)])
      (fun e =>
         emit (BaseAgent.logger (base self)) ERROR
              "Notification sending failed: {e}" [VStr (exn_str e)] ;;;
         ret [("sent", VInt 0)]).

Definition _schedule_reminders (self : t) (plan : value) : M World dict :=
  emit (BaseAgent.logger (base self)) INFO "Scheduling real-time reminders" [] ;;;
  ret [("scheduled", VInt 3)].

Definition execute : t -> value -> M World dict :=
  execute_via _update_calendar_events _update_notion_tasks _send_notifications
              _schedule_reminders.
End ExecutorAgent.

(** ** AutonomousTaskPlanner: the orchestrator *)

Module AutonomousTaskPlanner.
Record t : Type := mk {
  config : value;
  logger : string;
  reviewer_agent : ReviewerLearnerAgent.t;
  collector_agent : CollectorAgent.t;
  planner_agent : PlannerAgent.t;
  executor_agent : ExecutorAgent.t
}.

(** Which [execute] the orchestrator awaited, with the argument it passed. *)
Inductive Awaited : Type :=
| AwaitReviewer
| AwaitCollector
| AwaitPlanner (input_data : dict)
| AwaitExecutor (approved_plan : value).

(** A run of the orchestrator: the world, and the history of the [execute]
    calls it has awaited so far, oldest first.  The history is ghost state:
    only [await] writes it and nothing reads it. *)
Record Run : Type := mk_run { world : World; awaited : list Awaited }.

Definition lift {A} (c : M World A) : M Run A :=
  fun r => let (x, w) := c (world r) in (x, mk_run w (awaited r)).

(** [await agent.execute(...)]. *)
Definition await {A} (who : Awaited) (c : M World A) : M Run A :=
  fun r => let (x, w) := c (world r) in (x, mk_run w (awaited r ++ [who])).

(** [_load_config]: [files w path] is the JSON document [open] and
    [json.load] yield, [None] when either fails.  The handler then reads
    [self.logger], which [__init__] assigns only after [_load_config]
    has returned, so the handler itself raises [AttributeError]. *)
Definition _load_config (config_path : string) : M World value :=
  fun w => match files w config_path with
           | Some v => (Ok v, w)
           | None =>
               (Raise (AttributeError
                  "'AutonomousTaskPlanner' object has no attribute 'logger'"), w)
           end.

(** [_setup_cron_jobs]: [cron w] is the failure of the crontab calls, if
    any; the crontab itself is outside the model. *)
Definition _setup_cron_jobs (logger : string) : M World unit :=
  fun w => match cron w with
           | None => emit logger INFO "Cron jobs configured successfully" [] w
           | Some e => emit logger ERROR "Failed to setup cron jobs: {e}"
                            [VStr (exn_str e)] w
           end.

Definition __init__ (config_path : string) : M World t :=
  config <- _load_config config_path ;;
  let logger := "AutonomousTaskPlanner" in
  reviewer <- ReviewerLearnerAgent.__init__ config ;;
  collector <- CollectorAgent.__init__ config ;;
  planner <- PlannerAgent.__init__ config ;;
  executor <- ExecutorAgent.__init__ config ;;
  _setup_cron_jobs logger ;;;
  ret (mk config logger reviewer collector planner executor).

(** The orchestrator reaches the stages through the [execute] method of the
    four agent objects it holds; the section takes these methods as the
    objects resolve them. *)
Section Dispatch.
Variable reviewer_execute : ReviewerLearnerAgent.t -> M World dict.
Variable collector_execute : CollectorAgent.t -> M World dict.
Variable planner_execute : PlannerAgent.t -> dict -> M World dict.
Variable executor_execute : ExecutorAgent.t -> value -> M World dict.

Definition run_agent_via (self : t) (agent_name : string) : M Run value :=
  lift (emit (logger self) INFO "Running {agent_name} agent" [VStr agent_name]) ;;;
  if (agent_name =? "reviewer")%string then
    r <- await AwaitReviewer (reviewer_execute (reviewer_agent self)) ;;
    ret (VDict r)
  else if (agent_name =? "collector")%string then
    r <- await AwaitCollector (collector_execute (collector_agent self)) ;;
    ret (VDict r)
  else if (agent_name =? "planner")%string then
    collector_data <- await AwaitCollector (collector_execute (collector_agent self)) ;;
    r <- await (AwaitPlanner collector_data)
               (planner_execute (planner_agent self) collector_data) ;;
    ret (VDict r)
  else if (agent_name =? "executor")%string then
    collector_data <- await AwaitCollector (collector_execute (collector_agent self)) ;;
    planner_result <- await (AwaitPlanner collector_data)
               (planner_execute (planner_agent self) collector_data) ;;
    if truthy (get_default "plan_approved" VNone planner_result) then
      final_plan <- of_res (getitem (VDict planner_result) "final_plan") ;;
      r <- await (AwaitExecutor final_plan)
                 (executor_execute (executor_agent self) final_plan) ;;
      ret (VDict r)
    else ret VNone
  else raise (ValueError ("Unknown agent: " ++ agent_name)).

Definition run_full_workflow_via (self : t) : M Run dict :=
  lift (emit (logger self) INFO "Starting full autonomous planning workflow" []) ;;;
  let results : dict := [] in
  collector_result <- await AwaitCollector (collector_execute (collector_agent self)) ;;
  let results := store "collector" (VDict collector_result) results in
  collector_status <- of_res (getitem (VDict collector_result) "status") ;;
  results <-
    (if str_eq collector_status "success" then
       planner_result <- await (AwaitPlanner collector_result)
           (planner_execute (planner_agent self) collector_result) ;;
       let results := store "planner" (VDict planner_result) results in
       planner_status <- of_res (getitem (VDict planner_result) "status") ;;
       if str_eq planner_status "success" then
         plan_approved <- of_res (getitem (VDict planner_result) "plan_approved") ;;
         if truthy plan_approved then
           final_plan <- of_res (getitem (VDict planner_result) "final_plan") ;;
           executor_result <- await (AwaitExecutor final_plan)
               (executor_execute (executor_agent self) final_plan) ;;
           ret (store "executor" (VDict executor_result) results)
         else ret results
       else ret results
     else ret results) ;;
  stamp <- lift now ;;
  ret [("workflow_status", VStr "completed");
       ("timestamp", VIso stamp);
       ("results", VDict results)].
End Dispatch.

Definition run_agent : t -> string -> M Run value :=
  run_agent_via ReviewerLearnerAgent.execute CollectorAgent.execute
                PlannerAgent.execute ExecutorAgent.execute.

Definition run_full_workflow : t -> M Run dict :=
  run_full_workflow_via CollectorAgent.execute PlannerAgent.execute
                        ExecutorAgent.execute.

(** The agent names [argparse] accepts for [--agent]. *)
Inductive agent_choice : Type := reviewer | collector | planner | executor.

Definition choice_name (c : agent_choice) : string :=
  match c with
  | reviewer => "reviewer"
  | collector => "collector"
  | planner => "planner"
  | executor => "executor"
  end.

Record Args : Type := mk_args { agent : option agent_choice; workflow : bool }.

(** The [__main__] block: what it prints. *)
Definition main (args : Args) : M Run (list value) :=
  planner_system <- lift (__init__ "config.json") ;;
  match agent args with
  | Some c =>
      result <- run_agent planner_system (choice_name c) ;;
      ret [result]
  | None =>
      if workflow args then
        result <- run_full_workflow planner_system ;;
        ret [VDict result]
      else
        ret [VStr "Autonomous Task Planner Bot initialized successfully!";
             VStr "Use --agent <name> to run specific agent or --workflow for full execution"]
  end.
End AutonomousTaskPlanner.

(** * Concrete inputs *)

(** Times are microseconds; the clock of the sample worlds advances one
    second per reading. *)
Definition clock0 (n : nat) : Z := 1000000 * Z.of_nat n.

(** A world with every credential but the notifier's, a language model that
    always answers and a weather service that cannot be reached. *)
Definition world0 : World :=
  mk_world [("GEMINI_API_KEY", "g-key"); ("OPENWEATHER_API_KEY", "w-key")]
           (fun _ => Some (VDict []))
           None
           clock0
           (fun _ => inr "model reply")
           (fun _ => false)
           (fun _ => inl (mk_exn "ConnectionError" "weather service unreachable"))
           0 0 0 VNone [].

(** [world0] with a clock that runs one hour ahead. *)
Definition world0_later : World :=
  mk_world (environ world0) (files world0) (cron world0)
           (fun n => 3600000000 + clock0 n)
           (gemini world0) (response_blocked world0) (http world0) 0 0 0 VNone [].

(** [world0] seen by another process: other environment, a log already
    written, the same clock and the same language-model answers. *)
Definition world0_elsewhere : World :=
  mk_world [("GEMINI_API_KEY", "other-key")] (files world0) (cron world0)
           (times world0) (gemini world0) (response_blocked world0) (http world0) 0 0 0 (VStr "other-key")
           [mk_log "root" INFO "started" []].

(** [world0] where the language model answers the first request and fails
    the second. *)
Definition world_quota : World :=
  mk_world (environ world0) (files world0) (cron world0) clock0
           (fun n => match n with
                     | 1%nat => inl (mk_exn "ResourceExhausted" "quota exceeded")
                     | _ => inr "model reply"
                     end)
           (response_blocked world0) (http world0) 0 0 0 VNone [].

(** A slot of a draft: minutes since midnight. *)
Definition slot (task_id : string) (priority start stop : Z) : value :=
  VDict [("task_id", VStr task_id); ("priority", VInt priority);
         ("start", VInt start); ("end", VInt stop)].

(** The scenario of the specification: [9:00,10:00) at priority 5 and
    [9:30,10:30) at priority 2. *)
Definition overlapping_draft : dict :=
  [("plan_type", VStr "daily");
   ("tasks", VList [slot "A" 5 540 600; slot "B" 2 570 630])].

(** Two half-open time ranges overlap when each starts before the other
    ends.  The detector has no such test; this one only says of the draft
    above that its two slots do overlap. *)
Definition ranges_overlap (start1 stop1 start2 stop2 : Z) : bool :=
  (start1 <? stop2) && (start2 <? stop1).

Definition overlap_conflict : value :=
  VDict [("kind", VStr "TimeOverlap"); ("slots", VList [VStr "A"; VStr "B"]);
         ("movable", VStr "B")].

Definition base0 (cls : string) : BaseAgent.t := BaseAgent.mk (VDict []) cls 0.

(** The planner [PlannerAgent.__init__] builds from an empty configuration. *)
Definition planner0 : PlannerAgent.t :=
  PlannerAgent.mk (base0 "PlannerAgent") gemini_pro ConflictDetector.new
                  PlannerAgent.default_priority_weights.

(** A planner whose detector object reports the overlap of the scenario. *)
Definition planner_clash : PlannerAgent.t :=
  PlannerAgent.mk (base0 "PlannerAgent") gemini_pro
                  (fun _ => ret [overlap_conflict])
                  PlannerAgent.default_priority_weights.

(** A planner whose detector object raises. *)
Definition planner_broken : PlannerAgent.t :=
  PlannerAgent.mk (base0 "PlannerAgent") gemini_pro
                  (fun _ => raise (mk_exn "RuntimeError" "detector unavailable"))
                  PlannerAgent.default_priority_weights.

(** A planner whose detector object is interrupted from the keyboard. *)
Definition planner_interrupted : PlannerAgent.t :=
  PlannerAgent.mk (base0 "PlannerAgent") gemini_pro
                  (fun _ => raise KeyboardInterrupt)
                  PlannerAgent.default_priority_weights.

Definition executor0 : ExecutorAgent.t :=
  ExecutorAgent.mk (base0 "ExecutorAgent") google_calendar
                   (VDict [("token", VNone)]) VNone.

Definition collector0 : CollectorAgent.t :=
  CollectorAgent.mk (base0 "CollectorAgent") (VStr "w-key") google_calendar
                    (VDict [("token", VNone)]) gemini_pro.

Definition reviewer0 : ReviewerLearnerAgent.t :=
  ReviewerLearnerAgent.mk (base0 "ReviewerLearnerAgent") gemini_pro
                          (VDict [("token", VNone)]) google_calendar.

Definition system0 (p : PlannerAgent.t) : AutonomousTaskPlanner.t :=
  AutonomousTaskPlanner.mk (VDict []) "AutonomousTaskPlanner"
                           reviewer0 collector0 p executor0.

(** [world0] with an empty environment: no credential at all. *)
Definition world_bare : World :=
  mk_world [] (files world0) (cron world0) clock0 (gemini world0) (response_blocked world0) (http world0)
           0 0 0 VNone [].

(** An approved plan, as the planner hands it to the executor. *)
Definition approved_plan0 : value :=
  VDict [("plan_type", VStr "daily");
         ("tasks", VList [slot "A" 5 540 600; slot "B" 2 630 690]);
         ("approved", VBool true); ("ready_for_execution", VBool true)].

(** * Vocabulary of the statements *)

(** The revised plan [_resolve_conflicts] builds when the language model
    answers [text] and the clock reads [stamp]. *)
Definition revised (plan : dict) (conflicts : list value) (text : string)
    (stamp : Z) : dict :=
  store "revised_at" (VIso stamp)
    (store "resolution_details" (VStr text)
       (store "conflicts_resolved" (VInt (length_Z conflicts)) plan)).

(** What the resolver returns is read off the prompt's serialisability,
    the language model's next outcome and the clock's next reading. *)
Definition resolution (plan : dict) (conflicts : list value)
    (outcome : exn + string) (stamp : Z) : dict :=
  if serializable (VList conflicts) then
    match outcome with
    | inr text => revised plan conflicts text stamp
    | inl _ => plan
    end
  else plan.

(** Why the resolver's attempt fails, if it does: the conflicts do not
    render as JSON, or the language model's [answer] is a failure. *)
Definition resolution_failure (conflicts : list value) (answer : exn + string)
  : option exn :=
  if serializable (VList conflicts) then
    match answer with
    | inr _ => None
    | inl e => Some e
    end
  else Some (not_serializable (VList conflicts)).

(** The record the resolver's handler writes for the failure [e]. *)
Definition resolution_failed (logger : string) (e : exn) : LogRecord :=
  mk_log logger ERROR "Conflict resolution failed: {e}" [VStr (exn_str e)].

(** The records a run of the resolver adds to the log. *)
Definition resolver_records (logger : string) (conflicts : list value)
    (answer : exn + string) : list LogRecord :=
  mk_log logger INFO "Resolving {len(conflicts)} conflicts with AI"
         [VInt (length_Z conflicts)]
  :: match resolution_failure conflicts answer with
     | Some e => [resolution_failed logger e]
     | None => []
     end.

(** The requests a run of the resolver sends to the language model. *)
Definition resolver_requests (conflicts : list value) : nat :=
  if serializable (VList conflicts) then 1%nat else 0%nat.

(** [run] is an [execute] method and [body] its [try] block, given the
    start time.  [run] returns what the block returns; when the block
    raises an instance [e] of [Exception], [run] returns the error result
    made from [e]; what the block raises that is no instance of
    [Exception] leaves [run] as it left the block. *)
Definition catches_Exception_only (run : M World dict)
    (body : Z -> M World dict) : Prop :=
  forall w,
    let start_time := times w (ticks w) in
    let w0 := with_ticks (S (ticks w)) w in
    (forall d w1, body start_time w0 = (Ok d, w1) -> run w = (Ok d, w1)) /\
    (forall (e : exn) w1, body start_time w0 = (Raise (Exception e), w1) ->
       exists w', run w = (Ok [("status", VStr "error");
                               ("message", VStr (exn_str e))], w')) /\
    (forall cls msg w1,
       body start_time w0 = (Raise (NonException cls msg), w1) ->
       run w = (Raise (NonException cls msg), w1)).

(** The count of notifications [_send_notifications] reports. *)
Definition notifications (self : ExecutorAgent.t) (plan : value) : value :=
  if negb (truthy (ExecutorAgent.telegram_bot self)) then VInt 0
  else match ExecutorAgent._create_plan_summary self plan with
       | Returns _ => VInt 1
       | Raises _ => VInt 0
       end.

(** The report [ExecutorAgent.execute] returns. *)
Definition execution_report (sent : value) (duration : Z) : dict :=
  [("status", success);
   ("calendar_events_created", VInt 5);
   ("notion_tasks_updated", VInt 8);
   ("notifications_sent", sent);
   ("reminders_scheduled", VInt 3);
   ("execution_time", VFloat duration)].

(** ** Vocabulary of the further properties *)

(** A weather service answer with every field [_fetch_weather_data] reads. *)
Definition weather_body : value :=
  VDict [("main", VDict [("temp", VFloat 21500000); ("humidity", VInt 40)]);
         ("weather", VList [VDict [("description", VStr "clear sky");
                                   ("main", VStr "Clear")]]);
         ("wind", VDict [("speed", VFloat 3200000)])].

(** [world0] with a weather service that answers [weather_body]. *)
Definition world_sunny : World :=
  mk_world (environ world0) (files world0) (cron world0) clock0
           (gemini world0) (response_blocked world0)
           (fun _ => inr weather_body) 0 0 0 VNone [].

(** [world0] with a language model that fails every request. *)
Definition world_model_down : World :=
  mk_world (environ world0) (files world0) (cron world0) clock0
           (fun _ => inl (mk_exn "ServiceUnavailable" "model down"))
           (response_blocked world0) (http world0) 0 0 0 VNone [].

(** [world_model_down] where the requests return and it is reading [.text]
    of the response that fails. *)
Definition world_response_blocked : World :=
  mk_world (environ world0) (files world0) (cron world0) clock0
           (fun _ => inl (mk_exn "ValueError" "response has no text"))
           (fun _ => true) (http world0) 0 0 0 VNone [].

(** [world0] whose configuration file holds a JSON array. *)
Definition world_config_array : World :=
  mk_world (environ world0) (fun _ => Some (VList [])) (cron world0) clock0
           (gemini world0) (response_blocked world0) (http world0) 0 0 0 VNone [].

(** [world0] with no readable configuration file. *)
Definition world_no_config : World :=
  mk_world (environ world0) (fun _ => None) (cron world0) clock0
           (gemini world0) (response_blocked world0) (http world0) 0 0 0 VNone [].

(** [world0] where the crontab cannot be written. *)
Definition world_no_cron : World :=
  mk_world (environ world0) (files world0)
           (Some (mk_exn "OSError" "crontab: command not found")) clock0
           (gemini world0) (response_blocked world0) (http world0) 0 0 0 VNone [].

(** [world0] with an empty language-model credential. *)
Definition world_empty_key : World :=
  mk_world [("GEMINI_API_KEY", EmptyString)] (files world0) (cron world0)
           clock0 (gemini world0) (response_blocked world0) (http world0) 0 0 0 VNone [].

(** An executor with a configured notifier. *)
Definition executor_bot : ExecutorAgent.t :=
  ExecutorAgent.mk (base0 "ExecutorAgent") google_calendar
                   (VDict [("token", VNone)]) (VDict [("token", VStr "t-key")]).

(** The wall clock never steps back. *)
Definition monotone_clock (w : World) : Prop :=
  forall i j : nat, (i <= j)%nat -> times w i <= times w j.

(** The key under which [run_full_workflow] files the result of a stage. *)
Definition stage_key (a : AutonomousTaskPlanner.Awaited) : string :=
  match a with
  | AutonomousTaskPlanner.AwaitReviewer => "reviewer"
  | AutonomousTaskPlanner.AwaitCollector => "collector"
  | AutonomousTaskPlanner.AwaitPlanner _ => "planner"
  | AutonomousTaskPlanner.AwaitExecutor _ => "executor"
  end.

(** The record [log_performance] emits. *)
Definition performance_record (logger operation : string) (duration : Z)
    (ok : bool) : LogRecord :=
  mk_log logger INFO
         "Operation: {operation}, Duration: {duration:.2f}s, Success: {success}"
         [VStr operation; VFloat duration; VBool ok].

(** The raw data [CollectorAgent.execute] hands to [_structure_data]. *)
Definition raw_data (weather : option WeatherData.t) : dict :=
  [("calendar_events", VList []);
   ("weather_data", CollectorAgent.weather_value weather);
   ("notion_tasks", VList [])].

(** The result of [CollectorAgent.execute]: [weather] is what the weather
    step returned, [answer] the language model's outcome, [stamp] the
    time of the clean data and [duration] the run's. *)
Definition collector_report (weather : option WeatherData.t)
    (answer : exn + string) (stamp duration : Z) : dict :=
  [("status", success);
   ("calendar_events", VInt 0);
   ("weather_updated", VBool (truthy (CollectorAgent.weather_value weather)));
   ("notion_tasks", VInt 0);
   ("structured_data",
    VDict [("timestamp", VIso stamp);
           ("data_quality", VStr "high");
           ("ready_for_planning", VBool true);
           ("structured_data",
            VDict (match answer with
                   | inr text => [("structured", VBool true);
                                  ("ai_response", VStr text)]
                   | inl _ => raw_data weather
                   end))]);
   ("execution_time", VFloat duration)].

(** The plan [_draft_plan] returns on the language model's outcome
    [answer], stamped [stamp] when the model answered. *)
Definition draft (answer : exn + string) (stamp : Z) : dict :=
  match answer with
  | inr text => [("plan_type", VStr "daily");
                 ("created_at", VIso stamp);
                 ("ai_generated", VBool true);
                 ("plan_details", VStr text);
                 ("tasks", VList [])]
  | inl e => error_result e
  end.

(** What [_apply_learned_rules] and then [_approve_plan] make of a plan. *)
Definition approved (weights : value) (stamp : Z) (plan : dict) : dict :=
  store "ready_for_execution" (VBool true)
    (store "approved_at" (VIso stamp)
       (store "approved" (VBool true)
          (store "priority_weights" weights
             (store "optimization_applied" (VBool true) plan)))).

(** The clock readings a planner run without conflicts consumes after its
    start: one for the approval, and one for the draft's stamp unless the
    request for the draft itself raised. *)
Definition readings (w : World) : nat :=
  match gemini w (gemini_calls w) with
  | inr _ => 2%nat
  | inl _ => if response_blocked w (gemini_calls w) then 2%nat else 1%nat
  end.

(** The value [os.getenv(name)] yields in [w]. *)
Definition env_value (name : string) (w : World) : value :=
  match env_lookup name (environ w) with
  | Some v => VStr v
  | None => VNone
  end.

(** 1 when the language model answered, 0 when it failed. *)
Definition answered (a : exn + string) : Z :=
  match a with
  | inr _ => 1
  | inl _ => 0
  end.

(** The plan has a summary: it is a dict whose ["tasks"], when present,
    has a length. *)
Definition summarisable (plan : value) : Prop :=
  exists p n, plan = VDict p /\ len (get_default "tasks" (VList []) p) = Some n.

(** The text [_generate_feedback] returns on the language model's outcome. *)
Definition feedback_text (a : exn + string) : value :=
  match a with
  | inr text => VStr text
  | inl _ => VStr "Unable to generate feedback at this time."
  end.

(** The last record of a log. *)
Definition last_record (w : World) : LogRecord :=
  last (log w) (mk_log EmptyString INFO EmptyString []).

(** The world after the orchestrator logged that it runs [agent_name]. *)
Definition announced (self : AutonomousTaskPlanner.t) (agent_name : string)
    (w : World) : World :=
  snd (emit (AutonomousTaskPlanner.logger self) INFO
            "Running {agent_name} agent" [VStr agent_name] w).

(** The world after the orchestrator logged the start of the workflow. *)
Definition workflow_started (self : AutonomousTaskPlanner.t) (w : World)
  : World :=
  snd (emit (AutonomousTaskPlanner.logger self) INFO
            "Starting full autonomous planning workflow" [] w).

(** The record [_setup_cron_jobs] leaves in the log. *)
Definition cron_record (logger : string) (failure : option exn) : LogRecord :=
  match failure with
  | None => mk_log logger INFO "Cron jobs configured successfully" []
  | Some e => mk_log logger ERROR "Failed to setup cron jobs: {e}"
                     [VStr (exn_str e)]
  end.

(** * Reasoning about runs *)

Lemma bind_ok {S A B} (c : M S A) (k : A -> M S B) s a s' :
  c s = (Ok a, s') -> bind c k s = k a s'.
Proof. unfold bind. intros ->. reflexivity. Qed.

Lemma bind_raise {S A B} (c : M S A) (k : A -> M S B) s e s' :
  c s = (Raise e, s') -> bind c k s = (Raise e, s').
Proof. unfold bind. intros ->. reflexivity. Qed.

Lemma try_except_ok {S A} (c : M S A) h s a s' :
  c s = (Ok a, s') -> try_except c h s = (Ok a, s').
Proof. unfold try_except. intros ->. reflexivity. Qed.

Lemma try_except_raise {S A} (c : M S A) h s (e : exn) s' :
  c s = (Raise (Exception e), s') -> try_except c h s = h e s'.
Proof. unfold try_except. intros ->. reflexivity. Qed.

Lemma try_except_pass {S A} (c : M S A) h s cls msg s' :
  c s = (Raise (NonException cls msg), s') ->
  try_except c h s = (Raise (NonException cls msg), s').
Proof. unfold try_except. intros ->. reflexivity. Qed.

Lemma lookup_store_same k v d : lookup k (store k v d) = Some v.
Proof.
  induction d as [|[k' v'] d IH]; simpl.
  - now rewrite String.eqb_refl.
  - destruct (k' =? k)%string eqn:E; simpl; rewrite E; auto.
Qed.

Lemma lookup_store_other k k' v d :
  k' <> k -> lookup k (store k' v d) = lookup k d.
Proof.
  intros Hne. induction d as [|[k0 v0] d IH]; simpl.
  - destruct (String.eqb_spec k' k); [contradiction | reflexivity].
  - destruct (String.eqb_spec k0 k') as [->|Hk0]; simpl.
    + destruct (String.eqb_spec k' k); [contradiction | reflexivity].
    + destruct (String.eqb_spec k0 k); auto.
Qed.

(** The texts of the exceptions, as Python words them. *)
Example exception_texts :
  exn_str (KeyError "status") = "'status'" /\
  getitem (VDict []) "status" = Raises (mk_exn "KeyError" "'status'") /\
  getitem (VList []) "main"
  = Raises (TypeError "list indices must be integers or slices, not str") /\
  getitem VNone "main"
  = Raises (TypeError "'NoneType' object is not subscriptable") /\
  getitem0 (VInt 3) = Raises (TypeError "'int' object is not subscriptable") /\
  get_method VNone "tasks" (VList [])
  = Raises (AttributeError "'NoneType' object has no attribute 'get'") /\
  py_len (VInt 3) = Raises (TypeError "object of type 'int' has no len()") /\
  json_dumps false (VList [VDict [("w", VData "WeatherData" [])]])
  = Raises (TypeError "Object of type WeatherData is not JSON serializable").
Proof. repeat split. Qed.

(** ** The detector and the resolver *)

Lemma detect_conflicts_nil plan : ConflictDetector.detect_conflicts plan = [].
Proof. reflexivity. Qed.

(** A run of the resolver, whole: the plan it returns, the requests it
    sends and the records it writes. *)
Lemma _resolve_conflicts_run self plan conflicts w :
  exists w',
    PlannerAgent._resolve_conflicts self plan conflicts w
    = (Ok (resolution plan conflicts (gemini w (gemini_calls w))
                      (times w (ticks w))), w') /\
    gemini_calls w' = (gemini_calls w + resolver_requests conflicts)%nat /\
    log w' = (log w ++ resolver_records
                         (BaseAgent.logger (PlannerAgent.base self))
                         conflicts (gemini w (gemini_calls w)))%list.
Proof.
  unfold PlannerAgent._resolve_conflicts, resolution, resolver_records,
    resolver_requests, resolution_failure, resolution_failed, json_dumps, bind,
    try_except, of_res, emit, generate_content, now, ret.
  cbn [orb serializable fst snd].
  destruct (forallb serializable conflicts); cbn.
  - destruct (gemini w (gemini_calls w)); cbn;
      (eexists; split; [reflexivity|]; split;
       [cbn; symmetry; apply Nat.add_1_r|]);
      cbn; rewrite <- ?app_assoc; reflexivity.
  - eexists. split; [reflexivity|]. split; [cbn; symmetry; apply Nat.add_0_r|].
    cbn. rewrite <- app_assoc. reflexivity.
Qed.

Lemma _resolve_conflicts_result self plan conflicts w :
  fst (PlannerAgent._resolve_conflicts self plan conflicts w)
  = Ok (resolution plan conflicts (gemini w (gemini_calls w)) (times w (ticks w))).
Proof.
  destruct (_resolve_conflicts_run self plan conflicts w) as [w' [H _]].
  rewrite H. reflexivity.
Qed.

Lemma resolution_keeps plan conflicts answer stamp k :
  k <> "conflicts_resolved" -> k <> "resolution_details" -> k <> "revised_at" ->
  lookup k (resolution plan conflicts answer stamp) = lookup k plan.
Proof.
  intros H1 H2 H3. unfold resolution, revised.
  destruct (serializable (VList conflicts)); [|reflexivity].
  destruct answer; [reflexivity|].
  rewrite !lookup_store_other by congruence. reflexivity.
Qed.

Lemma _resolve_conflicts_keeps self plan conflicts w k :
  k <> "conflicts_resolved" -> k <> "resolution_details" -> k <> "revised_at" ->
  forall p, fst (PlannerAgent._resolve_conflicts self plan conflicts w) = Ok p ->
  lookup k p = lookup k plan.
Proof.
  intros H1 H2 H3 p. rewrite _resolve_conflicts_result. intros [= <-].
  apply resolution_keeps; assumption.
Qed.

(** C1. At the draft of the scenario, whose two slots [9:00,10:00) and
    [9:30,10:30) overlap, [detect_conflicts] returns the empty list: it
    reports no TimeOverlap conflict and marks no slot movable. *)
Theorem detect_conflicts_misses_overlap :
  ranges_overlap 540 600 570 630 = true /\
  lookup "tasks" overlapping_draft
    = Some (VList [slot "A" 5 540 600; slot "B" 2 570 630]) /\
  ConflictDetector.detect_conflicts overlapping_draft = [].
Proof. repeat split. Qed.


(** The same with the conflict the scenario expects handed to the
    resolver: the revised plan keeps both slots where they were. *)
Example resolver_keeps_reported_overlap :
  exists p,
    fst (PlannerAgent._resolve_conflicts planner0 overlapping_draft
           [overlap_conflict] world0) = Ok p /\
    lookup "conflicts_resolved" p = Some (VInt 1) /\
    lookup "tasks" p = Some (VList [slot "A" 5 540 600; slot "B" 2 570 630]).
Proof. eexists. split; [vm_compute; reflexivity|]. split; reflexivity. Qed.

(** C5, as stated, fails: on the same plan and the same conflicts the
    resolver returns different plans in two worlds that differ in the
    clock alone. *)
Lemma resolver_output_depends_on_clock :
  fst (PlannerAgent._resolve_conflicts planner0 overlapping_draft
         [overlap_conflict] world0)
  <> fst (PlannerAgent._resolve_conflicts planner0 overlapping_draft
            [overlap_conflict] world0_later).
Proof.
  rewrite !_resolve_conflicts_result. vm_compute. intros H. discriminate H.
Qed.

(** C5, amended. The resolver never fails, and its output is a function of
    the plan, the conflicts, the language model's answer to its request and
    the clock's reading: two runs on the same plan and conflicts that get
    the same answer at the same time return the same plan.  Every key of
    the plan other than the three the resolver writes keeps its value, so
    no slot is moved or reordered. *)
Theorem resolver_deterministic_given_reply_and_time :
  forall (self : PlannerAgent.t) (plan : dict) (conflicts : list value)
         (w1 w2 : World),
    gemini w1 (gemini_calls w1) = gemini w2 (gemini_calls w2) ->
    times w1 (ticks w1) = times w2 (ticks w2) ->
    exists p,
      fst (PlannerAgent._resolve_conflicts self plan conflicts w1) = Ok p /\
      fst (PlannerAgent._resolve_conflicts self plan conflicts w2) = Ok p /\
      forall k, k <> "conflicts_resolved" -> k <> "resolution_details" ->
                k <> "revised_at" -> lookup k p = lookup k plan.
Proof.
  intros self plan conflicts w1 w2 Hg Ht.
  eexists. split; [apply _resolve_conflicts_result|].
  split; [rewrite _resolve_conflicts_result, Hg, Ht; reflexivity|].
  intros k H1 H2 H3.
  apply (_resolve_conflicts_keeps self plan conflicts w1 k H1 H2 H3).
  apply _resolve_conflicts_result.
Qed.

Lemma resolver_deterministic_given_reply_and_time_witness :
  exists p,
    fst (PlannerAgent._resolve_conflicts planner0 overlapping_draft
           [overlap_conflict] world0) = Ok p /\
    fst (PlannerAgent._resolve_conflicts planner0 overlapping_draft
           [overlap_conflict] world0_elsewhere) = Ok p /\
    lookup "tasks" p = lookup "tasks" overlapping_draft.
Proof.
  destruct (resolver_deterministic_given_reply_and_time planner0
              overlapping_draft [overlap_conflict] world0 world0_elsewhere
              eq_refl eq_refl) as [p [H1 [H2 H3]]].
  exists p. split; [exact H1|]. split; [exact H2|].
  apply H3; discriminate.
Defined.

(** ** The planning stage *)

Ltac unfold_planner :=
  unfold PlannerAgent.execute, PlannerAgent.execute_via,
    PlannerAgent.execute_body, PlannerAgent.execute_handler,
    PlannerAgent._draft_plan, PlannerAgent._resolve_conflicts,
    PlannerAgent._apply_learned_rules, PlannerAgent._approve_plan,
    BaseAgent.log_performance.

Ltac run_steps :=
  unfold bind, try_except, of_res, ret, raise, emit, now, generate_content,
    generate_response, response_text, json_dumps; simpl.

Ltac approved_result :=
  do 2 eexists; split; [reflexivity|];
  split; [reflexivity|]; split; [reflexivity|];
  eexists; split; reflexivity.

(** The three ways the request for the draft can end. *)
Ltac draft_cases w :=
  let e := fresh "e" in
  let text := fresh "text" in
  destruct (gemini w (gemini_calls w)) as [e|text];
  [destruct (response_blocked w (gemini_calls w))|]; simpl.

(** With a detector that returns, the planner's own steps never raise:
    [execute] ends in its [return] of a success result with
    ["plan_approved": True], around a plan [_approve_plan] has marked. *)
Lemma planner_execute_approves b g weights (detect : dict -> list value)
    input_data w :
  exists d w',
    PlannerAgent.execute
      (PlannerAgent.mk b g (fun plan => ret (detect plan)) weights)
      input_data w = (Ok d, w') /\
    lookup "status" d = Some success /\
    lookup "plan_approved" d = Some (VBool true) /\
    exists plan, lookup "final_plan" d = Some (VDict plan) /\
                 lookup "approved" plan = Some (VBool true).
Proof.
  unfold_planner. run_steps.
  draft_cases w;
    (destruct (detect _) as [|c cs]; simpl; [approved_result|];
     destruct (serializable c && forallb serializable cs); simpl;
     [|approved_result];
     destruct (gemini w (S (gemini_calls w))); simpl; approved_result).
Qed.

Ltac resolved_result :=
  do 3 eexists; split; [reflexivity|];
  do 6 (split; [reflexivity|]);
  split; [simpl; rewrite ?Nat.add_0_r, ?Nat.add_1_r; reflexivity|].

(** A planner run with a detector that returns, whole: what it reports
    and what the resolver left behind. *)
Lemma planner_execute_resolution b g weights (detect : dict -> list value)
    input_data w :
  let conflicts :=
    detect (draft (gemini w (gemini_calls w)) (times w (S (ticks w)))) in
  let answer := gemini w (S (gemini_calls w)) in
  exists d w' plan,
    PlannerAgent.execute
      (PlannerAgent.mk b g (fun plan => ret (detect plan)) weights)
      input_data w = (Ok d, w') /\
    lookup "status" d = Some success /\
    lookup "plan_approved" d = Some (VBool true) /\
    lookup "conflicts_resolved" d = Some (VInt (length_Z conflicts)) /\
    lookup "final_plan" d = Some (VDict plan) /\
    lookup "approved" plan = Some (VBool true) /\
    lookup "ready_for_execution" plan = Some (VBool true) /\
    gemini_calls w'
    = (S (gemini_calls w)
       + if truthy (VList conflicts) then resolver_requests conflicts else 0)%nat /\
    (conflicts <> [] ->
     match resolution_failure conflicts answer with
     | Some e => In (resolution_failed (BaseAgent.logger b) e) (log w') /\
                 lookup "resolution_details" plan = None /\
                 lookup "revised_at" plan = None
     | None => exists text, answer = inr text /\
                            lookup "resolution_details" plan = Some (VStr text)
     end).
Proof.
  intros conflicts answer. subst conflicts answer.
  unfold_planner.
  unfold draft, resolver_requests, resolution_failure, resolution_failed.
  run_steps.
  draft_cases w;
    (destruct (detect _) as [|c cs]; simpl;
     [resolved_result; intros H; contradiction H; reflexivity|];
     destruct (serializable c && forallb serializable cs); simpl;
     [destruct (gemini w (S (gemini_calls w))); simpl|];
     resolved_result; intros _; simpl;
     first [ eexists; split; reflexivity
           | split; [|split; reflexivity];
             rewrite !in_app_iff; simpl; tauto ]).
Qed.

(** Whatever the detector object does, a planner run ends in one of three
    ways. *)
Lemma planner_execute_outcomes b g (detector : ConflictDetector.obj) weights
    input_data w :
  match fst (PlannerAgent.execute (PlannerAgent.mk b g detector weights)
                                  input_data w) with
  | Ok d => (lookup "status" d = Some success /\
             lookup "plan_approved" d = Some (VBool true)) \/
            (exists e : exn, d = error_result e)
  | Raise r => exists cls msg, r = NonException cls msg
  end.
Proof.
  unfold_planner. run_steps.
  draft_cases w;
    (match goal with
     | |- context [detector ?p ?w1] =>
         destruct (detector p w1) as [[cs|[e'|cls msg]] w2]; simpl
     end;
     [ destruct cs as [|c cs]; simpl; [left; split; reflexivity|];
       destruct (serializable c && forallb serializable cs); simpl;
       [destruct (gemini w2 (gemini_calls w2)); simpl|];
       left; split; reflexivity
     | right; eexists; reflexivity
     | do 2 eexists; reflexivity ]).
Qed.

(** C3, as stated, fails: with one conflict detected and the resolver's
    only attempt failed (the failure is in the log, the plan is returned
    unrevised), [execute] returns a success result that reports an approved
    plan and one conflict resolved. *)
Lemma planner_approves_after_failed_resolution :
  exists d w',
    PlannerAgent.execute planner_clash [] world_quota = (Ok d, w') /\
    In (mk_log "PlannerAgent" ERROR "Conflict resolution failed: {e}"
               [VStr "quota exceeded"]) (log w') /\
    lookup "status" d = Some (VStr "success") /\
    lookup "plan_approved" d = Some (VBool true) /\
    lookup "conflicts_resolved" d = Some (VInt 1) /\
    lookup "status" d <> Some (VStr "error").
Proof.
  do 2 eexists. split; [vm_compute; reflexivity|].
  split; [simpl; tauto|].
  repeat split. discriminate.
Qed.

(** C3, amended. The planning stage has no attempt budget and no
    NoFeasibleSchedule error.

    The resolver makes one attempt and always returns a plan.  The attempt
    sends one request to the language model when the conflicts render as
    JSON and none when they do not; it fails when they do not render or the
    request fails.  A failed attempt writes one ERROR record, "Conflict
    resolution failed", with the failure's message, and returns the plan
    it was given; an attempt that goes through writes no such record and
    returns the revised plan.

    With a detector that returns, [execute] then approves the plan and
    returns a success result with ["plan_approved": True] whose
    ["conflicts_resolved"] is the number of conflicts detected, also when
    the attempt failed: the ERROR record is then in the log and the
    approved plan carries no resolution.

    Whatever the detector object does, a result [execute] returns is such
    a success result or the two-key error result made from an exception;
    it has no other error result. *)
Theorem planner_approves_whatever_resolution_does :
  (forall (self : PlannerAgent.t) (plan : dict) (conflicts : list value)
          (w : World),
      let answer := gemini w (gemini_calls w) in
      let logger := BaseAgent.logger (PlannerAgent.base self) in
      exists p w',
        PlannerAgent._resolve_conflicts self plan conflicts w = (Ok p, w') /\
        gemini_calls w' = (gemini_calls w + resolver_requests conflicts)%nat /\
        match resolution_failure conflicts answer with
        | Some e =>
            p = plan /\
            log w'
            = (log w ++ [mk_log logger INFO
                                "Resolving {len(conflicts)} conflicts with AI"
                                [VInt (length_Z conflicts)];
                         resolution_failed logger e])%list
        | None =>
            (exists text,
                answer = inr text /\
                p = revised plan conflicts text (times w (ticks w))) /\
            log w'
            = (log w ++ [mk_log logger INFO
                                "Resolving {len(conflicts)} conflicts with AI"
                                [VInt (length_Z conflicts)]])%list
        end)
  /\
  (forall (b : BaseAgent.t) (g weights : value) (detect : dict -> list value)
          (input_data : dict) (w : World),
      let conflicts :=
        detect (draft (gemini w (gemini_calls w)) (times w (S (ticks w)))) in
      let answer := gemini w (S (gemini_calls w)) in
      exists d w' plan,
        PlannerAgent.execute
          (PlannerAgent.mk b g (fun plan => ret (detect plan)) weights)
          input_data w = (Ok d, w') /\
        lookup "status" d = Some success /\
        lookup "plan_approved" d = Some (VBool true) /\
        lookup "conflicts_resolved" d = Some (VInt (length_Z conflicts)) /\
        lookup "final_plan" d = Some (VDict plan) /\
        lookup "approved" plan = Some (VBool true) /\
        lookup "ready_for_execution" plan = Some (VBool true) /\
        gemini_calls w'
        = (S (gemini_calls w)
           + if truthy (VList conflicts)
             then resolver_requests conflicts else 0)%nat /\
        (conflicts <> [] ->
         match resolution_failure conflicts answer with
         | Some e => In (resolution_failed (BaseAgent.logger b) e) (log w') /\
                     lookup "resolution_details" plan = None /\
                     lookup "revised_at" plan = None
         | None => exists text,
                     answer = inr text /\
                     lookup "resolution_details" plan = Some (VStr text)
         end))
  /\
  (forall (b : BaseAgent.t) (g weights : value)
          (detector : ConflictDetector.obj) (input_data : dict) (w : World),
      match fst (PlannerAgent.execute (PlannerAgent.mk b g detector weights)
                                      input_data w) with
      | Ok d => (lookup "status" d = Some success /\
                 lookup "plan_approved" d = Some (VBool true)) \/
                (exists e : exn, d = error_result e)
      | Raise r => exists cls msg, r = NonException cls msg
      end).
Proof.
  split; [|split].
  - intros self plan conflicts w answer logger. subst answer logger.
    destruct (_resolve_conflicts_run self plan conflicts w)
      as [w' [H [Hg Hl]]].
    do 2 eexists. split; [exact H|]. split; [exact Hg|].
    rewrite Hl. unfold resolution, resolver_records, resolution_failure.
    destruct (serializable (VList conflicts)); [|split; reflexivity].
    destruct (gemini w (gemini_calls w)) as [e|text]; [split; reflexivity|].
    split; [eexists; split; reflexivity|reflexivity].
  - apply planner_execute_resolution.
  - intros b g weights detector input_data w.
    apply planner_execute_outcomes.
Qed.

(** The resolver's attempt on conflicts that do not render as JSON fails
    before any request is sent. *)
Example resolver_sends_nothing_on_unrenderable_conflicts :
  exists w',
    PlannerAgent._resolve_conflicts planner0 overlapping_draft
      [VData "Conflict" []] world0 = (Ok overlapping_draft, w') /\
    gemini_calls w' = 0%nat /\
    last_record w'
    = resolution_failed "PlannerAgent"
        (TypeError "Object of type Conflict is not JSON serializable").
Proof. eexists. split; [vm_compute; reflexivity|]. split; reflexivity. Qed.

(** ** The [try]/[except] around every [execute] *)

Lemma guarded_catches_Exception_only (body : Z -> M World dict)
    (handler : Z -> exn -> M World dict) :
  (forall start e w, exists w', handler start e w = (Ok (error_result e), w')) ->
  catches_Exception_only
    (start_time <- now ;; try_except (body start_time) (handler start_time))
    body.
Proof.
  intros Hh w start_time w0.
  unfold bind, now, try_except; fold start_time; fold w0.
  destruct (body start_time w0) as [[d|[e|cls msg]] w1] eqn:Hbody.
  - split; [|split].
    + intros d' w1' [= <- <-]. reflexivity.
    + intros e w1' [=].
    + intros cls msg w1' [=].
  - destruct (Hh start_time e w1) as [w' Hw']. split; [|split].
    + intros d w1' [=].
    + intros e' w1' [= <- <-]. exists w'. exact Hw'.
    + intros cls msg w1' [=].
  - split; [|split].
    + intros d w1' [=].
    + intros e w1' [=].
    + intros cls' msg' w1' [= <- <- <-]. reflexivity.
Qed.

Ltac handler_returns :=
  intros start e w; unfold BaseAgent.log_performance; run_steps;
  eexists; reflexivity.

Lemma reviewer_catches_Exception_only f1 f2 f3 f4 f5 self :
  catches_Exception_only
    (ReviewerLearnerAgent.execute_via f1 f2 f3 f4 f5 self)
    (ReviewerLearnerAgent.execute_body f1 f2 f3 f4 f5 self).
Proof.
  apply (guarded_catches_Exception_only
           (ReviewerLearnerAgent.execute_body f1 f2 f3 f4 f5 self)
           (ReviewerLearnerAgent.execute_handler self)).
  unfold ReviewerLearnerAgent.execute_handler. handler_returns.
Qed.

Lemma collector_catches_Exception_only f1 f2 f3 f4 f5 self :
  catches_Exception_only
    (CollectorAgent.execute_via f1 f2 f3 f4 f5 self)
    (CollectorAgent.execute_body f1 f2 f3 f4 f5 self).
Proof.
  apply (guarded_catches_Exception_only
           (CollectorAgent.execute_body f1 f2 f3 f4 f5 self)
           (CollectorAgent.execute_handler self)).
  unfold CollectorAgent.execute_handler. handler_returns.
Qed.

Lemma planner_catches_Exception_only f1 f2 f3 f4 self input_data :
  catches_Exception_only
    (PlannerAgent.execute_via f1 f2 f3 f4 self input_data)
    (PlannerAgent.execute_body f1 f2 f3 f4 self input_data).
Proof.
  apply (guarded_catches_Exception_only
           (PlannerAgent.execute_body f1 f2 f3 f4 self input_data)
           (PlannerAgent.execute_handler self)).
  unfold PlannerAgent.execute_handler. handler_returns.
Qed.

Lemma executor_catches_Exception_only f1 f2 f3 f4 self approved_plan :
  catches_Exception_only
    (ExecutorAgent.execute_via f1 f2 f3 f4 self approved_plan)
    (ExecutorAgent.execute_body f1 f2 f3 f4 self approved_plan).
Proof.
  apply (guarded_catches_Exception_only
           (ExecutorAgent.execute_body f1 f2 f3 f4 self approved_plan)
           (ExecutorAgent.execute_handler self)).
  unfold ExecutorAgent.execute_handler. handler_returns.
Qed.

(** With the class's own steps the failures of the collaborators stay
    inside the steps, and [execute] returns its success result. *)
Lemma _fetch_weather_data_returns self w :
  exists o w', CollectorAgent._fetch_weather_data self w = (Ok o, w').
Proof.
  unfold CollectorAgent._fetch_weather_data.
  destruct (negb (truthy (CollectorAgent.weather_api_key self))).
  - run_steps. eauto.
  - unfold bind, try_except, of_res, ret, emit, now, requests_get_json;
      cbn -[getitem getitem0].
    destruct (http w (http_calls w)) as [e|body]; cbn -[getitem getitem0];
      [eauto|].
    repeat match goal with
           | |- context [match getitem ?a ?b with _ => _ end] =>
               destruct (getitem a b); cbn -[getitem getitem0]
           | |- context [match getitem0 ?a with _ => _ end] =>
               destruct (getitem0 a); cbn -[getitem getitem0]
           end; eauto.
Qed.

Lemma _structure_data_returns self raw w :
  exists d w', CollectorAgent._structure_data self raw w = (Ok d, w').
Proof.
  unfold CollectorAgent._structure_data. run_steps.
  destruct (gemini w (gemini_calls w)); simpl; eauto.
Qed.

Lemma collector_execute_succeeds self w :
  exists d w',
    CollectorAgent.execute self w = (Ok d, w') /\
    lookup "status" d = Some success.
Proof.
  unfold CollectorAgent.execute, CollectorAgent.execute_via,
    CollectorAgent.execute_body, CollectorAgent._fetch_calendar_events,
    CollectorAgent._fetch_notion_tasks, CollectorAgent._prepare_clean_data,
    BaseAgent.log_performance.
  unfold bind at 1. unfold now at 1. unfold try_except at 1.
  unfold bind at 1. unfold bind at 1. unfold emit at 1, ret at 1.
  unfold bind at 1.
  match goal with
  | |- context [CollectorAgent._fetch_weather_data self ?w0] =>
      destruct (_fetch_weather_data_returns self w0) as [o [w1 ->]]
  end.
  unfold bind at 1. unfold bind at 1. unfold emit at 1, ret at 1.
  unfold bind at 1.
  match goal with
  | |- context [CollectorAgent._structure_data self ?raw ?w0] =>
      destruct (_structure_data_returns self raw w0) as [d [w2 ->]]
  end.
  run_steps. do 2 eexists. split; reflexivity.
Qed.

Lemma reviewer_execute_succeeds self w :
  exists d w',
    ReviewerLearnerAgent.execute self w = (Ok d, w') /\
    lookup "status" d = Some success.
Proof.
  unfold ReviewerLearnerAgent.execute, ReviewerLearnerAgent.execute_via,
    ReviewerLearnerAgent.execute_body,
    ReviewerLearnerAgent._fetch_completed_tasks,
    ReviewerLearnerAgent._analyze_patterns,
    ReviewerLearnerAgent._generate_rules, ReviewerLearnerAgent._store_rules,
    ReviewerLearnerAgent._generate_feedback, BaseAgent.log_performance.
  run_steps.
  destruct (gemini w (gemini_calls w)); simpl;
    destruct (gemini w (S (gemini_calls w))); simpl;
    destruct (gemini w (S (S (gemini_calls w)))); simpl;
    do 2 eexists; split; reflexivity.
Qed.

(** The handler at work: the detector object of [planner_broken] raises
    an instance of [Exception] inside the [try] block of
    [PlannerAgent.execute]. *)
Example planner_execute_catches_detector_failure :
  fst (PlannerAgent.execute planner_broken [] world0)
  = Ok [("status", VStr "error"); ("message", VStr "detector unavailable")].
Proof. vm_compute. reflexivity. Qed.

(** C9, as stated, fails: [KeyboardInterrupt] is no instance of
    [Exception]; raised inside the [try] block of [PlannerAgent.execute],
    here by the detector object, it passes the handler and leaves
    [execute], which returns no dict and writes no failure record: the
    last record of the log is the draft step's. *)
Lemma execute_propagates_KeyboardInterrupt :
  exists w',
    PlannerAgent.execute planner_interrupted [] world0
    = (Raise KeyboardInterrupt, w') /\
    log w' = [mk_log "PlannerAgent" INFO "Drafting intelligent plan with AI" []].
Proof. eexists. split; [vm_compute; reflexivity|]. reflexivity. Qed.

(** C9, amended. Whatever methods the steps of an agent resolve to, on
    every input and in every world: [execute] returns the dict its [try]
    block returns; when the block raises an instance [e] of [Exception],
    [execute] catches it and returns the dict
    [{"status": "error", "message": str(e)}]; when the block raises what
    is no instance of [Exception] ([KeyboardInterrupt], [SystemExit],
    [asyncio.CancelledError]), [execute] raises it to its caller, with
    nothing logged or changed after the block.  This holds of the four
    agents. *)
Theorem execute_catches_Exception_only :
  (forall f1 f2 f3 f4 f5 self,
      catches_Exception_only
        (ReviewerLearnerAgent.execute_via f1 f2 f3 f4 f5 self)
        (ReviewerLearnerAgent.execute_body f1 f2 f3 f4 f5 self)) /\
  (forall f1 f2 f3 f4 f5 self,
      catches_Exception_only
        (CollectorAgent.execute_via f1 f2 f3 f4 f5 self)
        (CollectorAgent.execute_body f1 f2 f3 f4 f5 self)) /\
  (forall f1 f2 f3 f4 self input_data,
      catches_Exception_only
        (PlannerAgent.execute_via f1 f2 f3 f4 self input_data)
        (PlannerAgent.execute_body f1 f2 f3 f4 self input_data)) /\
  (forall f1 f2 f3 f4 self approved_plan,
      catches_Exception_only
        (ExecutorAgent.execute_via f1 f2 f3 f4 self approved_plan)
        (ExecutorAgent.execute_body f1 f2 f3 f4 self approved_plan)).
Proof.
  split; [|split; [|split]].
  - exact reviewer_catches_Exception_only.
  - exact collector_catches_Exception_only.
  - exact planner_catches_Exception_only.
  - exact executor_catches_Exception_only.
Qed.

(** ** The execute stage *)

Lemma executor_execute_report self plan w :
  exists w',
    ExecutorAgent.execute self plan w
    = (Ok (execution_report (notifications self plan)
                            (times w (S (ticks w)) - times w (ticks w))), w').
Proof.
  unfold ExecutorAgent.execute, ExecutorAgent.execute_via,
    ExecutorAgent.execute_body, ExecutorAgent._update_calendar_events,
    ExecutorAgent._update_notion_tasks, ExecutorAgent._send_notifications,
    ExecutorAgent._schedule_reminders, BaseAgent.log_performance,
    notifications, execution_report.
  run_steps.
  destruct (truthy (ExecutorAgent.telegram_bot self)); simpl.
  - destruct (ExecutorAgent._create_plan_summary self plan); simpl;
      eexists; reflexivity.
  - eexists; reflexivity.
Qed.




(** C7. When the environment holds no [TELEGRAM_BOT_TOKEN], constructing
    the executor succeeds with [telegram_bot] set to [None], and every
    [execute] of that executor returns a success result whose
    ["notifications_sent"] is 0. *)
Theorem unconfigured_notifier_sends_nothing :
  forall (config : value) (w : World),
    env_lookup "TELEGRAM_BOT_TOKEN" (environ w) = None ->
    exists self w1,
      ExecutorAgent.__init__ config w = (Ok self, w1) /\
      ExecutorAgent.telegram_bot self = VNone /\
      forall (plan : value) (w2 : World),
      exists d w3,
        ExecutorAgent.execute self plan w2 = (Ok d, w3) /\
        lookup "status" d = Some (VStr "success") /\
        lookup "notifications_sent" d = Some (VInt 0).
Proof.
  intros config w Henv.
  unfold ExecutorAgent.__init__, BaseAgent.__init__,
    ExecutorAgent._initialize_calendar, ExecutorAgent._initialize_notion,
    ExecutorAgent._initialize_telegram, getenv.
  run_steps. rewrite Henv. simpl.
  do 2 eexists. split; [reflexivity|]. split; [reflexivity|].
  intros plan w2.
  match goal with
  | |- context [ExecutorAgent.execute ?s _ _] =>
      destruct (executor_execute_report s plan w2) as [w3 H3]
  end.
  do 2 eexists. split; [exact H3|]. split; reflexivity.
Qed.

Lemma unconfigured_notifier_sends_nothing_witness :
  exists self w1,
    ExecutorAgent.__init__ (VDict []) world0 = (Ok self, w1) /\
    ExecutorAgent.telegram_bot self = VNone /\
    exists d w3,
      ExecutorAgent.execute self approved_plan0 w1 = (Ok d, w3) /\
      lookup "status" d = Some (VStr "success") /\
      lookup "notifications_sent" d = Some (VInt 0).
Proof.
  destruct (unconfigured_notifier_sends_nothing (VDict []) world0 eq_refl)
    as [self [w1 [Hinit [Hbot Hrun]]]].
  exists self, w1. split; [exact Hinit|]. split; [exact Hbot|].
  exact (Hrun approved_plan0 w1).
Defined.

(** ** Construction *)

(** C8. When the environment holds no [GEMINI_API_KEY], constructing the
    reviewer, the collector or the planner raises [ValueError], and the
    program, which constructs its agents before it runs any of them, ends
    in an exception with no [execute] awaited. *)
Theorem missing_gemini_key_fails_construction :
  forall (config : value) (w : World),
    env_lookup "GEMINI_API_KEY" (environ w) = None ->
    (exists w',
        ReviewerLearnerAgent.__init__ config w
        = (Raise (ValueError "GEMINI_API_KEY environment variable required"), w')) /\
    (exists w',
        CollectorAgent.__init__ config w
        = (Raise (ValueError "GEMINI_API_KEY required"), w')) /\
    (exists w',
        PlannerAgent.__init__ config w
        = (Raise (ValueError "GEMINI_API_KEY required"), w')) /\
    (forall (args : AutonomousTaskPlanner.Args)
            (history : list AutonomousTaskPlanner.Awaited),
        exists e r',
          AutonomousTaskPlanner.main args (AutonomousTaskPlanner.mk_run w history)
          = (Raise e, r') /\
          AutonomousTaskPlanner.awaited r' = history).
Proof.
  intros config w Henv.
  split; [|split; [|split]].
  - unfold ReviewerLearnerAgent.__init__, BaseAgent.__init__,
      ReviewerLearnerAgent._initialize_gemini, getenv.
    run_steps. rewrite Henv. simpl. eexists; reflexivity.
  - unfold CollectorAgent.__init__, BaseAgent.__init__,
      CollectorAgent._initialize_calendar, CollectorAgent._initialize_notion,
      CollectorAgent._initialize_gemini, getenv.
    run_steps. rewrite Henv. simpl. eexists; reflexivity.
  - unfold PlannerAgent.__init__, BaseAgent.__init__,
      PlannerAgent._initialize_gemini, getenv.
    run_steps. rewrite Henv. simpl. eexists; reflexivity.
  - intros args history.
    unfold AutonomousTaskPlanner.main, AutonomousTaskPlanner.lift,
      AutonomousTaskPlanner.__init__, AutonomousTaskPlanner._load_config,
      ReviewerLearnerAgent.__init__, BaseAgent.__init__,
      ReviewerLearnerAgent._initialize_gemini, getenv.
    run_steps.
    destruct (files w "config.json"); simpl.
    + rewrite Henv. simpl. do 2 eexists. split; reflexivity.
    + do 2 eexists. split; reflexivity.
Qed.

Lemma missing_gemini_key_fails_construction_witness :
  fst (ReviewerLearnerAgent.__init__ (VDict []) world_bare)
    = Raise (ValueError "GEMINI_API_KEY environment variable required") /\
  fst (CollectorAgent.__init__ (VDict []) world_bare)
    = Raise (ValueError "GEMINI_API_KEY required") /\
  fst (PlannerAgent.__init__ (VDict []) world_bare)
    = Raise (ValueError "GEMINI_API_KEY required") /\
  AutonomousTaskPlanner.awaited
    (snd (AutonomousTaskPlanner.main
            (AutonomousTaskPlanner.mk_args None true)
            (AutonomousTaskPlanner.mk_run world_bare []))) = [].
Proof.
  destruct (missing_gemini_key_fails_construction (VDict []) world_bare eq_refl)
    as [[w1 H1] [[w2 H2] [[w3 H3] H4]]].
  destruct (H4 (AutonomousTaskPlanner.mk_args None true) [])
    as [e [r' [Hmain Hhist]]].
  rewrite H1, H2, H3, Hmain. repeat split. exact Hhist.
Defined.

(** ** The orchestrator *)

Lemma str_eq_true v s : str_eq v s = true -> v = VStr s.
Proof.
  destruct v; simpl; try discriminate.
  intros H. apply String.eqb_eq in H. now subst.
Qed.

Ltac history_step :=
  cbn [fst snd AutonomousTaskPlanner.awaited AutonomousTaskPlanner.world app].

(** Settles a goal about a history that has become a concrete list. *)
Ltac history_leaf :=
  split; [eauto 6|];
  split; intros ? Hin; simpl in Hin;
  repeat (destruct Hin as [Hin|Hin]);
  try discriminate Hin; try contradiction;
  try (injection Hin as <-); eauto 12.

(** C4. In every run of the full workflow, whatever the three agents do:
    the planner's [execute] is awaited only if the collector's returned a
    dict whose status is "success", and with that dict; the executor's
    [execute] is awaited only if, besides, the planner's returned a dict
    whose status is "success" and whose ["plan_approved"] is true, and with
    the ["final_plan"] of that dict; and the stages are awaited in the
    order collect, plan, execute, each at most once.  So when collection
    fails neither
    planning nor execution is invoked, and when planning fails or approves
    nothing execution is not invoked. *)
Theorem downstream_runs_only_after_upstream_success :
  forall (ce : CollectorAgent.t -> M World dict)
         (pe : PlannerAgent.t -> dict -> M World dict)
         (ee : ExecutorAgent.t -> value -> M World dict)
         (self : AutonomousTaskPlanner.t) (w : World),
    let w0 := snd (emit (AutonomousTaskPlanner.logger self) INFO
                        "Starting full autonomous planning workflow" [] w) in
    let collected := ce (AutonomousTaskPlanner.collector_agent self) w0 in
    let history :=
      AutonomousTaskPlanner.awaited
        (snd (AutonomousTaskPlanner.run_full_workflow_via ce pe ee self
                (AutonomousTaskPlanner.mk_run w []))) in
    (history = [AutonomousTaskPlanner.AwaitCollector] \/
     (exists c, history = [AutonomousTaskPlanner.AwaitCollector;
                           AutonomousTaskPlanner.AwaitPlanner c]) \/
     (exists c fp, history = [AutonomousTaskPlanner.AwaitCollector;
                              AutonomousTaskPlanner.AwaitPlanner c;
                              AutonomousTaskPlanner.AwaitExecutor fp])) /\
    (forall x, In (AutonomousTaskPlanner.AwaitPlanner x) history ->
        fst collected = Ok x /\ lookup "status" x = Some (VStr "success")) /\
    (forall fp, In (AutonomousTaskPlanner.AwaitExecutor fp) history ->
        exists c p,
          fst collected = Ok c /\ lookup "status" c = Some (VStr "success") /\
          fst (pe (AutonomousTaskPlanner.planner_agent self) c (snd collected))
            = Ok p /\
          lookup "status" p = Some (VStr "success") /\
          (exists a, lookup "plan_approved" p = Some a /\ truthy a = true) /\
          lookup "final_plan" p = Some fp).
Proof.
  intros ce pe ee self w w0 collected history.
  subst history collected w0.
  unfold AutonomousTaskPlanner.run_full_workflow_via,
    AutonomousTaskPlanner.lift, AutonomousTaskPlanner.await,
    bind, of_res, ret, getitem, emit, now.
  history_step.
  destruct (ce (AutonomousTaskPlanner.collector_agent self) _)
    as [[c|e] w1] eqn:Hc; history_step; [|history_leaf].
  destruct (lookup "status" c) as [st|] eqn:Hst; history_step; [|history_leaf].
  destruct (str_eq st "success") eqn:Hs; history_step; [|history_leaf].
  apply str_eq_true in Hs; subst st.
  destruct (pe (AutonomousTaskPlanner.planner_agent self) c w1)
    as [[p|e] w2] eqn:Hp; history_step; [|history_leaf].
  destruct (lookup "status" p) as [pst|] eqn:Hpst; history_step;
    [|history_leaf].
  destruct (str_eq pst "success") eqn:Hps; history_step; [|history_leaf].
  apply str_eq_true in Hps; subst pst.
  destruct (lookup "plan_approved" p) as [a|] eqn:Ha; history_step;
    [|history_leaf].
  destruct (truthy a) eqn:Hta; history_step; [|history_leaf].
  destruct (lookup "final_plan" p) as [fp0|] eqn:Hfp; history_step;
    [|history_leaf].
  destruct (ee (AutonomousTaskPlanner.executor_agent self) fp0 w2)
    as [[er|e] w3] eqn:He; history_step.
  - split; [eauto 6|].
    split; intros ? Hin; simpl in Hin;
      repeat (destruct Hin as [Hin|Hin]);
      try discriminate Hin; try contradiction; injection Hin as <-.
    + auto.
    + exists c, p. rewrite Hp. simpl. eauto 10.
  - split; [eauto 6|].
    split; intros ? Hin; simpl in Hin;
      repeat (destruct Hin as [Hin|Hin]);
      try discriminate Hin; try contradiction; injection Hin as <-.
    + auto.
    + exists c, p. rewrite Hp. simpl. eauto 10.
Qed.

(** A collector that returns its error result: neither downstream stage is
    awaited. *)
Example failed_collection_skips_planning_and_execution :
  AutonomousTaskPlanner.awaited
    (snd (AutonomousTaskPlanner.run_full_workflow_via
            (fun _ => ret (error_result (mk_exn "OSError" "disk full")))
            PlannerAgent.execute ExecutorAgent.execute
            (system0 planner0) (AutonomousTaskPlanner.mk_run world0 [])))
  = [AutonomousTaskPlanner.AwaitCollector].
Proof. vm_compute. reflexivity. Qed.

(** A planner that returns its error result: the executor is not awaited. *)
Example failed_planning_skips_execution :
  exists c,
    AutonomousTaskPlanner.awaited
      (snd (AutonomousTaskPlanner.run_full_workflow (system0 planner_broken)
              (AutonomousTaskPlanner.mk_run world0 [])))
    = [AutonomousTaskPlanner.AwaitCollector;
       AutonomousTaskPlanner.AwaitPlanner c].
Proof. eexists. vm_compute. reflexivity. Qed.

(** C10. [run_agent "executor"], when the collector and the planner return
    and the planner's result has no true ["plan_approved"], falls off the
    end of its branch: it returns [None], not a dict, without raising and
    without awaiting the executor. *)
Theorem run_agent_executor_without_approval_returns_None :
  forall (re : ReviewerLearnerAgent.t -> M World dict)
         (ce : CollectorAgent.t -> M World dict)
         (pe : PlannerAgent.t -> dict -> M World dict)
         (ee : ExecutorAgent.t -> value -> M World dict)
         (self : AutonomousTaskPlanner.t) (r : AutonomousTaskPlanner.Run)
         (c p : dict) (w1 w2 : World),
    let w0 := snd (emit (AutonomousTaskPlanner.logger self) INFO
                        "Running {agent_name} agent" [VStr "executor"]
                        (AutonomousTaskPlanner.world r)) in
    ce (AutonomousTaskPlanner.collector_agent self) w0 = (Ok c, w1) ->
    pe (AutonomousTaskPlanner.planner_agent self) c w1 = (Ok p, w2) ->
    truthy (get_default "plan_approved" VNone p) = false ->
    AutonomousTaskPlanner.run_agent_via re ce pe ee self "executor" r
    = (Ok VNone,
       AutonomousTaskPlanner.mk_run w2
         ((AutonomousTaskPlanner.awaited r
             ++ [AutonomousTaskPlanner.AwaitCollector])
            ++ [AutonomousTaskPlanner.AwaitPlanner c])).
Proof.
  intros re ce pe ee self r c p w1 w2 w0 Hc Hp Hna.
  subst w0.
  unfold AutonomousTaskPlanner.run_agent_via, AutonomousTaskPlanner.lift,
    AutonomousTaskPlanner.await, bind, ret, emit in *.
  change ("executor" =? "reviewer")%string with false.
  change ("executor" =? "collector")%string with false.
  change ("executor" =? "planner")%string with false.
  change ("executor" =? "executor")%string with true.
  cbv iota. history_step. cbn [fst snd] in Hc.
  rewrite Hc. history_step. rewrite Hp. history_step. rewrite Hna.
  reflexivity.
Qed.

Lemma run_agent_executor_without_approval_returns_None_witness :
  fst (AutonomousTaskPlanner.run_agent (system0 planner_broken) "executor"
         (AutonomousTaskPlanner.mk_run world0 [])) = Ok VNone.
Proof.
  unfold AutonomousTaskPlanner.run_agent.
  erewrite (run_agent_executor_without_approval_returns_None
              ReviewerLearnerAgent.execute CollectorAgent.execute
              PlannerAgent.execute ExecutorAgent.execute
              (system0 planner_broken)
              (AutonomousTaskPlanner.mk_run world0 [])).
  - reflexivity.
  - vm_compute; reflexivity.
  - vm_compute; reflexivity.
  - reflexivity.
Defined.

(** Under the three other names [run_agent] returns, when it returns, the
    dict of the agent it ran last. *)
Lemma run_agent_other_names_return_dict re ce pe ee self name r v r' :
  name = "reviewer" \/ name = "collector" \/ name = "planner" ->
  AutonomousTaskPlanner.run_agent_via re ce pe ee self name r = (Ok v, r') ->
  exists d, v = VDict d.
Proof.
  unfold AutonomousTaskPlanner.run_agent_via, AutonomousTaskPlanner.lift,
    AutonomousTaskPlanner.await, bind, ret, emit.
  history_step.
  intros [-> | [-> | ->]].
  - change ("reviewer" =? "reviewer")%string with true. cbv beta iota. history_step.
    destruct (re _ _) as [[d|e] w1]; history_step; intros [= <- <-]; eauto.
  - change ("collector" =? "reviewer")%string with false.
    change ("collector" =? "collector")%string with true. cbv beta iota. history_step.
    destruct (ce _ _) as [[d|e] w1]; history_step; intros [= <- <-]; eauto.
  - change ("planner" =? "reviewer")%string with false.
    change ("planner" =? "collector")%string with false.
    change ("planner" =? "planner")%string with true. cbv beta iota. history_step.
    destruct (ce _ _) as [[c|e] w1]; history_step; [|intros [=]].
    destruct (pe _ _ _) as [[d|e] w2]; history_step; intros [= <- <-]; eauto.
Qed.
(** * Further properties *)

(** ** The collector *)

Ltac run_folded :=
  unfold bind, try_except, of_res, ret, raise, emit, now, generate_content,
    requests_get_json, json_dumps;
  cbn -[getitem getitem0 Z.sub].

Ltac split_getitem :=
  repeat match goal with
         | |- context [match getitem ?a ?b with _ => _ end] =>
             destruct (getitem a b); cbn -[getitem getitem0 Z.sub]
         | |- context [match getitem0 ?a with _ => _ end] =>
             destruct (getitem0 a); cbn -[getitem getitem0 Z.sub]
         end.

(** What the weather step leaves of the world: it reads the clock at most
    once, sends at most one request and touches nothing else. *)
Lemma _fetch_weather_data_frame self w :
  exists o w',
    CollectorAgent._fetch_weather_data self w = (Ok o, w') /\
    gemini w' = gemini w /\ gemini_calls w' = gemini_calls w /\
    times w' = times w /\ environ w' = environ w /\
    (ticks w <= ticks w')%nat /\
    http_calls w' = (if truthy (CollectorAgent.weather_api_key self)
                     then S (http_calls w) else http_calls w) /\
    (truthy (CollectorAgent.weather_api_key self) = false -> o = None) /\
    (forall e, http w (http_calls w) = inl e -> o = None).
Proof.
  unfold CollectorAgent._fetch_weather_data.
  destruct (truthy (CollectorAgent.weather_api_key self)); cbn [negb].
  - run_folded.
    destruct (http w (http_calls w)) as [e|body]; cbn -[getitem getitem0 Z.sub].
    + do 2 eexists. split; [reflexivity|]. repeat split; auto.
    + split_getitem;
        (do 2 eexists; split; [reflexivity|]; repeat split; auto;
         try discriminate; try (simpl; lia)).
  - run_folded. do 2 eexists. split; [reflexivity|]. repeat split; auto.
Qed.

(** X1. [_fetch_weather_data] never raises, whatever the weather service
    does: it returns a [WeatherData] or [None].  Without a weather key it
    sends no request; with one it sends exactly one.  It returns [None]
    when the key is missing and when the request fails. *)
Theorem weather_fetch_absorbs_failures :
  forall (self : CollectorAgent.t) (w : World),
  exists o w',
    CollectorAgent._fetch_weather_data self w = (Ok o, w') /\
    http_calls w' = (if truthy (CollectorAgent.weather_api_key self)
                     then S (http_calls w) else http_calls w) /\
    (truthy (CollectorAgent.weather_api_key self) = false -> o = None) /\
    (forall e, http w (http_calls w) = inl e -> o = None).
Proof.
  intros self w.
  destruct (_fetch_weather_data_frame self w)
    as [o [w' [H [_ [_ [_ [_ [_ [Hh [Hk He]]]]]]]]]].
  exists o, w'. auto.
Qed.

(** X2. With a weather key, on an answer that has the five fields,
    [_fetch_weather_data] returns them as they are, stamped with the
    clock's reading. *)
Theorem weather_fetch_reads_fields :
  forall (self : CollectorAgent.t) (w : World)
         (body m f wi : dict) (rest : list value)
         (temp descr hum speed fc : value),
    truthy (CollectorAgent.weather_api_key self) = true ->
    http w (http_calls w) = inr (VDict body) ->
    lookup "main" body = Some (VDict m) ->
    lookup "weather" body = Some (VList (VDict f :: rest)) ->
    lookup "wind" body = Some (VDict wi) ->
    lookup "temp" m = Some temp ->
    lookup "humidity" m = Some hum ->
    lookup "description" f = Some descr ->
    lookup "main" f = Some fc ->
    lookup "speed" wi = Some speed ->
    fst (CollectorAgent._fetch_weather_data self w)
    = Ok (Some (WeatherData.mk temp descr hum speed fc (times w (ticks w)))).
Proof.
  intros self w body m f wi rest temp descr hum speed fc
         Hk Hh Hm Hw Hwi Ht Hhu Hd Hf Hs.
  unfold CollectorAgent._fetch_weather_data. rewrite Hk. cbn [negb].
  unfold bind, try_except, of_res, ret, emit, now, requests_get_json,
    getitem, getitem0.
  rewrite Hh. cbn [fst snd]. rewrite Hm, Ht, Hw, Hd, Hhu, Hwi, Hs, Hf.
  reflexivity.
Qed.

Lemma weather_fetch_reads_fields_witness :
  fst (CollectorAgent._fetch_weather_data collector0 world_sunny)
  = Ok (Some (WeatherData.mk (VFloat 21500000) (VStr "clear sky") (VInt 40)
                             (VFloat 3200000) (VStr "Clear") 0)).
Proof.
  exact (weather_fetch_reads_fields collector0 world_sunny _ _ _ _ _ _ _ _ _ _
           eq_refl eq_refl eq_refl eq_refl eq_refl eq_refl eq_refl eq_refl
           eq_refl eq_refl).
Defined.

(** The whole of a collector run. *)
Lemma collector_execute_report self w :
  exists o k w',
    CollectorAgent.execute self w
    = (Ok (collector_report o (gemini w (gemini_calls w)) (times w k)
             (times w (S k) - times w (ticks w))), w') /\
    (ticks w < k)%nat /\
    gemini_calls w' = S (gemini_calls w) /\
    http_calls w' = (if truthy (CollectorAgent.weather_api_key self)
                     then S (http_calls w) else http_calls w) /\
    (truthy (CollectorAgent.weather_api_key self) = false -> o = None) /\
    (forall e, http w (http_calls w) = inl e -> o = None) /\
    last (log w') (mk_log EmptyString INFO EmptyString [])
    = performance_record (BaseAgent.logger (CollectorAgent.base self))
        "collector_execution" (times w (S k) - times w (ticks w)) true.
Proof.
  unfold CollectorAgent.execute, CollectorAgent.execute_via,
    CollectorAgent.execute_body, CollectorAgent._fetch_calendar_events,
    CollectorAgent._fetch_notion_tasks, CollectorAgent._prepare_clean_data,
    CollectorAgent._structure_data, BaseAgent.log_performance,
    collector_report, raw_data, performance_record.
  unfold bind at 1. unfold now at 1. unfold try_except at 1.
  unfold bind at 1. unfold bind at 1. unfold emit at 1, ret at 1.
  unfold bind at 1.
  match goal with
  | |- context [CollectorAgent._fetch_weather_data self ?w0] =>
      destruct (_fetch_weather_data_frame self w0)
        as [o [w1 [Hw [Hg [Hgc [Ht [_ [Htk [Hh [Hk He]]]]]]]]]]
  end.
  cbn [gemini gemini_calls times ticks http_calls http with_log with_ticks] in *.
  rewrite Hw. exists o, (ticks w1).
  run_steps. rewrite Hg, Hgc.
  destruct (gemini w (gemini_calls w)); simpl; rewrite Ht;
    (eexists; split; [reflexivity|]; simpl; repeat split; auto;
     try lia; try apply last_last).
Qed.

(** X3. A collector run never fails and always reports itself ready:
    whatever the weather service and the language model do, [execute]
    returns status "success" with no calendar events and no Notion tasks,
    and clean data marked of high quality and ready for planning, after
    exactly one request to the language model. *)
Theorem collector_always_reports_ready :
  forall (self : CollectorAgent.t) (w : World),
  exists d w' clean,
    CollectorAgent.execute self w = (Ok d, w') /\
    lookup "status" d = Some (VStr "success") /\
    lookup "calendar_events" d = Some (VInt 0) /\
    lookup "notion_tasks" d = Some (VInt 0) /\
    lookup "structured_data" d = Some (VDict clean) /\
    lookup "data_quality" clean = Some (VStr "high") /\
    lookup "ready_for_planning" clean = Some (VBool true) /\
    gemini_calls w' = S (gemini_calls w).
Proof.
  intros self w.
  destruct (collector_execute_report self w)
    as [o [k [w' [H [_ [Hg _]]]]]].
  do 3 eexists. split; [exact H|]. repeat split. exact Hg.
Qed.

(** X4. When the language model fails, the collector forwards the raw
    data in place of the structured data: the calendar events, the weather
    and the Notion tasks as collected, with no ["ai_response"]. *)
Theorem collector_forwards_raw_data_when_model_fails :
  forall (self : CollectorAgent.t) (w : World) (e : exn),
    gemini w (gemini_calls w) = inl e ->
    exists d w' clean raw weather,
      CollectorAgent.execute self w = (Ok d, w') /\
      lookup "status" d = Some (VStr "success") /\
      lookup "structured_data" d = Some (VDict clean) /\
      lookup "structured_data" clean = Some (VDict raw) /\
      lookup "calendar_events" raw = Some (VList []) /\
      lookup "weather_data" raw = Some weather /\
      lookup "weather_updated" d = Some (VBool (truthy weather)) /\
      lookup "notion_tasks" raw = Some (VList []) /\
      lookup "ai_response" raw = None.
Proof.
  intros self w e He.
  destruct (collector_execute_report self w) as [o [k [w' [H _]]]].
  rewrite He in H.
  do 5 eexists. split; [exact H|]. repeat split.
Qed.

Lemma collector_forwards_raw_data_when_model_fails_witness :
  exists d w' clean,
    CollectorAgent.execute collector0 world_model_down = (Ok d, w') /\
    lookup "structured_data" d = Some (VDict clean) /\
    lookup "structured_data" clean
    = Some (VDict [("calendar_events", VList []); ("weather_data", VNone);
                   ("notion_tasks", VList [])]).
Proof.
  destruct (collector_forwards_raw_data_when_model_fails collector0
              world_model_down _ eq_refl)
    as [d [w' [clean [raw [weather [H _]]]]]].
  exists d, w'. revert H. vm_compute. intros [= <- <-].
  eexists. repeat split.
Defined.

(** X5. Without a weather key (none, or an empty one) the collector sends
    no weather request and reports ["weather_updated": False]; the run
    succeeds all the same. *)
Theorem collector_without_weather_key :
  forall (self : CollectorAgent.t) (w : World),
    truthy (CollectorAgent.weather_api_key self) = false ->
    exists d w',
      CollectorAgent.execute self w = (Ok d, w') /\
      lookup "status" d = Some (VStr "success") /\
      lookup "weather_updated" d = Some (VBool false) /\
      http_calls w' = http_calls w.
Proof.
  intros self w Hk.
  destruct (collector_execute_report self w)
    as [o [k [w' [H [_ [_ [Hh [Ho _]]]]]]]].
  rewrite Hk in Hh. rewrite (Ho Hk) in H.
  do 2 eexists. split; [exact H|]. repeat split. exact Hh.
Qed.

Lemma collector_without_weather_key_witness :
  exists d w',
    CollectorAgent.execute
      (CollectorAgent.mk (base0 "CollectorAgent") VNone google_calendar
                         (VDict [("token", VNone)]) gemini_pro)
      world_sunny = (Ok d, w') /\
    lookup "weather_updated" d = Some (VBool false) /\
    http_calls w' = 0%nat.
Proof.
  destruct (collector_without_weather_key
              (CollectorAgent.mk (base0 "CollectorAgent") VNone google_calendar
                                 (VDict [("token", VNone)]) gemini_pro)
              world_sunny eq_refl) as [d [w' [H [_ [Hu Hh]]]]].
  exists d, w'. auto.
Defined.

(** ** The planner *)

(** The whole of a planner run with the class's own detector. *)
Lemma planner_execute_report b g weights input_data w :
  let answer := gemini w (gemini_calls w) in
  let n := (ticks w + readings w)%nat in
  exists w',
    PlannerAgent.execute (PlannerAgent.mk b g ConflictDetector.new weights)
                         input_data w
    = (Ok [("status", success);
           ("plan_approved", VBool true);
           ("conflicts_resolved", VInt 0);
           ("optimized_tasks", VInt 0);
           ("final_plan",
            VDict (approved weights (times w n)
                            (draft answer (times w (S (ticks w))))));
           ("execution_time", VFloat (times w (S n) - times w (ticks w)))],
       w') /\
    gemini_calls w' = S (gemini_calls w) /\
    last (log w') (mk_log EmptyString INFO EmptyString [])
    = performance_record (BaseAgent.logger b) "planner_execution"
        (times w (S n) - times w (ticks w)) true.
Proof.
  intros answer n. subst answer n.
  unfold_planner. unfold ConflictDetector.new, ConflictDetector.detect_conflicts,
    performance_record, readings.
  run_steps.
  draft_cases w;
    rewrite ?Nat.add_1_r, ?Nat.add_succ_r, ?Nat.add_0_r;
    (eexists; split; [reflexivity|]; split; [reflexivity|]; apply last_last).
Qed.

(** X6. With the class's own detector a planner run never fails and never
    reaches the resolver: it sends exactly one request to the language
    model, reports no conflict resolved and no task optimised, and its
    final plan carries no trace of a resolution. *)
Theorem planner_never_resolves :
  forall (b : BaseAgent.t) (g weights : value) (input_data : dict) (w : World),
  exists d w' plan,
    PlannerAgent.execute (PlannerAgent.mk b g ConflictDetector.new weights)
                         input_data w = (Ok d, w') /\
    lookup "status" d = Some (VStr "success") /\
    lookup "conflicts_resolved" d = Some (VInt 0) /\
    lookup "optimized_tasks" d = Some (VInt 0) /\
    lookup "final_plan" d = Some (VDict plan) /\
    lookup "resolution_details" plan = None /\
    lookup "revised_at" plan = None /\
    gemini_calls w' = S (gemini_calls w).
Proof.
  intros b g weights input_data w.
  destruct (planner_execute_report b g weights input_data w) as [w' [H [Hg _]]].
  do 3 eexists. split; [exact H|].
  repeat split; try exact Hg;
    destruct (gemini w (gemini_calls w)); reflexivity.
Qed.

(** X7. When the language model fails the draft, the planner still
    succeeds: it approves, as its final plan, the error dict
    [_draft_plan] returned, which has status "error", the failure's
    message and no task list. *)
Theorem planner_approves_failed_draft :
  forall (b : BaseAgent.t) (g weights : value) (input_data : dict) (w : World)
         (e : exn),
    gemini w (gemini_calls w) = inl e ->
    exists d w' plan,
      PlannerAgent.execute (PlannerAgent.mk b g ConflictDetector.new weights)
                           input_data w = (Ok d, w') /\
      lookup "status" d = Some (VStr "success") /\
      lookup "plan_approved" d = Some (VBool true) /\
      lookup "final_plan" d = Some (VDict plan) /\
      lookup "status" plan = Some (VStr "error") /\
      lookup "message" plan = Some (VStr (exn_str e)) /\
      lookup "approved" plan = Some (VBool true) /\
      lookup "ready_for_execution" plan = Some (VBool true) /\
      lookup "tasks" plan = None.
Proof.
  intros b g weights input_data w e He.
  destruct (planner_execute_report b g weights input_data w) as [w' [H _]].
  rewrite He in H.
  do 3 eexists. split; [exact H|]. repeat split.
Qed.

Lemma planner_approves_failed_draft_witness :
  exists d w' plan,
    PlannerAgent.execute planner0 [] world_model_down = (Ok d, w') /\
    lookup "plan_approved" d = Some (VBool true) /\
    lookup "final_plan" d = Some (VDict plan) /\
    lookup "status" plan = Some (VStr "error") /\
    lookup "message" plan = Some (VStr "model down").
Proof.
  destruct (planner_approves_failed_draft (base0 "PlannerAgent") gemini_pro
              PlannerAgent.default_priority_weights [] world_model_down _
              eq_refl)
    as [d [w' [plan [H [_ [Ha [Hf [Hs [Hm _]]]]]]]]].
  exists d, w', plan. auto.
Defined.

(** The draft reads the clock between the request and the reading of the
    response's text: when it is the text that fails, the reading is spent
    and the approval is stamped one reading later than when the request
    itself fails. *)
Example planner_reads_clock_before_response_text :
  (exists d w' plan,
      PlannerAgent.execute planner0 [] world_response_blocked = (Ok d, w') /\
      lookup "final_plan" d = Some (VDict plan) /\
      lookup "message" plan = Some (VStr "response has no text") /\
      lookup "approved_at" plan = Some (VIso 2000000)) /\
  (exists d w' plan,
      PlannerAgent.execute planner0 [] world_model_down = (Ok d, w') /\
      lookup "final_plan" d = Some (VDict plan) /\
      lookup "message" plan = Some (VStr "model down") /\
      lookup "approved_at" plan = Some (VIso 1000000)).
Proof.
  split; do 3 eexists; (split; [vm_compute; reflexivity|]); repeat split.
Qed.

(** X8. When the language model answers the draft, the final plan carries
    the answer and an empty task list, the marks of the two later steps
    (optimisation applied, the agent's priority weights, approved, ready for
    execution) and the two time stamps, taken in this order. *)
Theorem planner_final_plan_contents :
  forall (b : BaseAgent.t) (g weights : value) (input_data : dict) (w : World)
         (text : string),
    gemini w (gemini_calls w) = inr text ->
    exists d w' plan,
      PlannerAgent.execute (PlannerAgent.mk b g ConflictDetector.new weights)
                           input_data w = (Ok d, w') /\
      lookup "final_plan" d = Some (VDict plan) /\
      lookup "plan_details" plan = Some (VStr text) /\
      lookup "tasks" plan = Some (VList []) /\
      lookup "optimization_applied" plan = Some (VBool true) /\
      lookup "priority_weights" plan = Some weights /\
      lookup "approved" plan = Some (VBool true) /\
      lookup "ready_for_execution" plan = Some (VBool true) /\
      lookup "created_at" plan = Some (VIso (times w (S (ticks w)))) /\
      lookup "approved_at" plan = Some (VIso (times w (S (S (ticks w))))).
Proof.
  intros b g weights input_data w text Ht.
  destruct (planner_execute_report b g weights input_data w) as [w' [H _]].
  unfold readings in H. rewrite Ht in H.
  rewrite Nat.add_succ_r, Nat.add_1_r in H.
  do 3 eexists. split; [exact H|]. repeat split.
Qed.

Lemma planner_final_plan_contents_witness :
  exists d w' plan,
    PlannerAgent.execute planner0 [] world0 = (Ok d, w') /\
    lookup "final_plan" d = Some (VDict plan) /\
    lookup "plan_details" plan = Some (VStr "model reply") /\
    lookup "created_at" plan = Some (VIso 1000000) /\
    lookup "approved_at" plan = Some (VIso 2000000).
Proof.
  destruct (planner_final_plan_contents (base0 "PlannerAgent") gemini_pro
              PlannerAgent.default_priority_weights [] world0 _ eq_refl)
    as [d [w' [plan [H [Hf [Hd [_ [_ [_ [_ [_ [Hc Ha]]]]]]]]]]]].
  exists d, w', plan. auto.
Defined.

(** X9. For every detector that returns, the planner's
    ["conflicts_resolved"] is the number of conflicts the detector found in
    the draft, whether the resolver revised the plan or gave up, and
    ["optimized_tasks"] is 0. *)
Theorem planner_counts_detected_conflicts :
  forall (b : BaseAgent.t) (g weights : value) (detect : dict -> list value)
         (input_data : dict) (w : World),
  exists d w',
    PlannerAgent.execute
      (PlannerAgent.mk b g (fun plan => ret (detect plan)) weights)
      input_data w = (Ok d, w') /\
    lookup "conflicts_resolved" d
    = Some (VInt (length_Z (detect (draft (gemini w (gemini_calls w))
                                          (times w (S (ticks w))))))) /\
    lookup "optimized_tasks" d = Some (VInt 0).
Proof.
  intros b g weights detect input_data w.
  unfold_planner. unfold draft. run_steps.
  draft_cases w;
    (destruct (detect _) as [|c cs]; simpl;
     [do 2 eexists; split; [reflexivity|]; split; reflexivity|];
     destruct (serializable c && forallb serializable cs); simpl;
     [|do 2 eexists; split; [reflexivity|]; split; reflexivity];
     destruct (gemini w (S (gemini_calls w))); simpl;
     do 2 eexists; (split; [reflexivity|]; split; reflexivity)).
Qed.

(** ** Construction of the agents *)

Lemma truthy_key key : key <> EmptyString -> truthy (VStr key) = true.
Proof.
  intros H. simpl. destruct (String.eqb_spec key EmptyString); auto.
Qed.

Ltac unfold_init :=
  unfold ReviewerLearnerAgent.__init__, CollectorAgent.__init__,
    PlannerAgent.__init__, ExecutorAgent.__init__, BaseAgent.__init__,
    ReviewerLearnerAgent._initialize_gemini,
    ReviewerLearnerAgent._initialize_notion,
    ReviewerLearnerAgent._initialize_calendar,
    CollectorAgent._initialize_gemini, CollectorAgent._initialize_notion,
    CollectorAgent._initialize_calendar,
    PlannerAgent._initialize_gemini,
    ExecutorAgent._initialize_calendar, ExecutorAgent._initialize_notion,
    ExecutorAgent._initialize_telegram, getenv, genai_configure, get_method.

(** X10. With a language-model key, [PlannerAgent.__init__] takes the
    priority weights from the configuration's ["priority_weights"], or the
    default 0.4/0.3/0.2/0.1 when the key is absent, and installs the class's
    own detector; on a configuration that is not a dict it raises
    [AttributeError]. *)
Theorem planner_init_priority_weights :
  forall (w : World) (key : string),
    env_lookup "GEMINI_API_KEY" (environ w) = Some key ->
    key <> EmptyString ->
    (forall cfg : dict,
        exists self w',
          PlannerAgent.__init__ (VDict cfg) w = (Ok self, w') /\
          PlannerAgent.priority_weights self
          = match lookup "priority_weights" cfg with
            | Some v => v
            | None => PlannerAgent.default_priority_weights
            end /\
          PlannerAgent.conflict_detector self = ConflictDetector.new) /\
    (forall config : value,
        (forall cfg, config <> VDict cfg) ->
        exists w',
          PlannerAgent.__init__ config w
          = (Raise (no_attribute_get config), w')).
Proof.
  intros w key Henv Hkey. split.
  - intros cfg. unfold_init. run_steps. rewrite Henv.
    cbn [truthy]. change (negb (key =? EmptyString)%string) with (truthy (VStr key)).
    rewrite (truthy_key key Hkey). simpl.
    do 2 eexists. split; [reflexivity|]. split; reflexivity.
  - intros config Hc. unfold_init. run_steps. rewrite Henv.
    cbn [truthy]. change (negb (key =? EmptyString)%string) with (truthy (VStr key)).
    rewrite (truthy_key key Hkey). simpl.
    destruct config; try (eexists; reflexivity).
    exfalso. eapply Hc. reflexivity.
Qed.

Lemma planner_init_priority_weights_witness :
  (exists self w',
      PlannerAgent.__init__
        (VDict [("priority_weights", VDict [("deadline", VFloat 1000000)])])
        world0 = (Ok self, w') /\
      PlannerAgent.priority_weights self
      = VDict [("deadline", VFloat 1000000)]) /\
  (exists w',
      PlannerAgent.__init__ (VList []) world0
      = (Raise (AttributeError "'list' object has no attribute 'get'"), w')).
Proof.
  destruct (planner_init_priority_weights world0 "g-key" eq_refl)
    as [Hd Hn]; [discriminate|].
  split.
  - destruct (Hd [("priority_weights", VDict [("deadline", VFloat 1000000)])])
      as [self [w' [H [Hw _]]]].
    exists self, w'. auto.
  - apply Hn. discriminate.
Defined.

(** X11. An empty [GEMINI_API_KEY] counts as a missing one: the three
    constructors that need the key raise [ValueError]. *)
Theorem empty_gemini_key_fails_construction :
  forall (config : value) (w : World),
    env_lookup "GEMINI_API_KEY" (environ w) = Some EmptyString ->
    (exists w',
        ReviewerLearnerAgent.__init__ config w
        = (Raise (ValueError "GEMINI_API_KEY environment variable required"), w')) /\
    (exists w',
        CollectorAgent.__init__ config w
        = (Raise (ValueError "GEMINI_API_KEY required"), w')) /\
    (exists w',
        PlannerAgent.__init__ config w
        = (Raise (ValueError "GEMINI_API_KEY required"), w')).
Proof.
  intros config w Henv.
  split; [|split]; unfold_init; run_steps; rewrite Henv; simpl;
    eexists; reflexivity.
Qed.

Lemma empty_gemini_key_fails_construction_witness :
  fst (ReviewerLearnerAgent.__init__ (VDict []) world_empty_key)
    = Raise (ValueError "GEMINI_API_KEY environment variable required") /\
  fst (CollectorAgent.__init__ (VDict []) world_empty_key)
    = Raise (ValueError "GEMINI_API_KEY required") /\
  fst (PlannerAgent.__init__ (VDict []) world_empty_key)
    = Raise (ValueError "GEMINI_API_KEY required").
Proof.
  destruct (empty_gemini_key_fails_construction (VDict []) world_empty_key
              eq_refl) as [[w1 H1] [[w2 H2] [w3 H3]]].
  rewrite H1, H2, H3. repeat split.
Defined.

(** X12. With a non-empty [GEMINI_API_KEY] the reviewer and the collector
    are constructed on any configuration and whatever else the environment
    holds: the key is handed to the language-model library, and the
    optional credentials (Notion token, weather key) are kept as found,
    [None] when absent. *)
Theorem gemini_key_suffices_for_construction :
  forall (config : value) (w : World) (key : string),
    env_lookup "GEMINI_API_KEY" (environ w) = Some key ->
    key <> EmptyString ->
    (exists self w',
        ReviewerLearnerAgent.__init__ config w = (Ok self, w') /\
        genai_key w' = VStr key /\
        ReviewerLearnerAgent.notion_client self
        = VDict [("token", env_value "NOTION_API_TOKEN" w)]) /\
    (exists self w',
        CollectorAgent.__init__ config w = (Ok self, w') /\
        genai_key w' = VStr key /\
        CollectorAgent.weather_api_key self
        = env_value "OPENWEATHER_API_KEY" w /\
        CollectorAgent.notion_client self
        = VDict [("token", env_value "NOTION_API_TOKEN" w)]).
Proof.
  intros config w key Henv Hkey.
  split; unfold_init; run_steps; rewrite Henv;
    cbn [truthy]; change (negb (key =? EmptyString)%string) with (truthy (VStr key));
    rewrite (truthy_key key Hkey); simpl;
    do 2 eexists; (split; [reflexivity|]); repeat split.
Qed.

Lemma gemini_key_suffices_for_construction_witness :
  exists self w',
    CollectorAgent.__init__ (VList []) world0 = (Ok self, w') /\
    genai_key w' = VStr "g-key" /\
    CollectorAgent.weather_api_key self = VStr "w-key" /\
    CollectorAgent.notion_client self = VDict [("token", VNone)].
Proof.
  destruct (gemini_key_suffices_for_construction (VList []) world0 "g-key"
              eq_refl) as [_ [self [w' H]]]; [discriminate|].
  exists self, w'. exact H.
Defined.

(** ** The executor *)

Lemma notifications_one self plan :
  notifications self plan = VInt 1 <->
  truthy (ExecutorAgent.telegram_bot self) = true /\ summarisable plan.
Proof.
  unfold notifications, summarisable, ExecutorAgent._create_plan_summary,
    get_method, py_len.
  destruct (truthy (ExecutorAgent.telegram_bot self)); cbn [negb].
  - destruct plan as [ |b|n|us|s|t|xs|kvs|cls fields]; cbv beta iota.
    1-7, 9: split; [intros [=] | intros [_ [p [n' [[=] _]]]]].
    destruct (len (get_default "tasks" (VList []) kvs)) as [n|] eqn:Hlen.
    + split; [intros _; split; [reflexivity|]; exists kvs, n; auto | reflexivity].
    + split; [intros [=]|].
      intros [_ [p [n [[= <-] Hn]]]]. rewrite Hn in Hlen. discriminate.
  - split; [intros [=] | intros [[=] _]].
Qed.

Lemma notifications_zero_or_one self plan :
  notifications self plan = VInt 0 \/ notifications self plan = VInt 1.
Proof.
  unfold notifications.
  destruct (negb (truthy (ExecutorAgent.telegram_bot self))); auto.
  destruct (ExecutorAgent._create_plan_summary self plan); auto.
Qed.

(** X13. An executor run succeeds on every plan, and reports one
    notification exactly when the notifier is configured and the plan is a
    dict whose ["tasks"], if present, has a length; otherwise it reports
    none.  An argument that is no dict (say [None]) does not fail the run. *)
Theorem executor_notifies_iff_summarisable :
  forall (self : ExecutorAgent.t) (plan : value) (w : World),
  exists d w' sent,
    ExecutorAgent.execute self plan w = (Ok d, w') /\
    lookup "status" d = Some (VStr "success") /\
    lookup "notifications_sent" d = Some sent /\
    (sent = VInt 0 \/ sent = VInt 1) /\
    (sent = VInt 1 <->
     truthy (ExecutorAgent.telegram_bot self) = true /\ summarisable plan).
Proof.
  intros self plan w.
  destruct (executor_execute_report self plan w) as [w' H].
  do 3 eexists. split; [exact H|]. split; [reflexivity|].
  split; [reflexivity|]. split.
  - apply notifications_zero_or_one.
  - apply notifications_one.
Qed.

(** With a notifier: one notification for a plan, none for [None]. *)
Example executor_bot_notifications :
  lookup "notifications_sent"
    (execution_report (notifications executor_bot approved_plan0) 0)
    = Some (VInt 1) /\
  lookup "notifications_sent"
    (execution_report (notifications executor_bot VNone) 0)
    = Some (VInt 0).
Proof. split; reflexivity. Qed.

(** ["tasks"] need not be a list: a string has a length, also the
    isoformat string of an instant; a number has none. *)
Example executor_bot_notifies_on_string_tasks :
  notifications executor_bot (VDict [("tasks", VIso 1000000)]) = VInt 1 /\
  notifications executor_bot (VDict [("tasks", VStr "later")]) = VInt 1 /\
  notifications executor_bot (VDict [("tasks", VInt 3)]) = VInt 0 /\
  len (VIso 1000000) = Some 19 /\
  len (VIso 1500000) = Some 26.
Proof. repeat split. Qed.

(** X14. Every final plan the planner returns can be summarised: an
    executor with a configured notifier, run on it, reports one
    notification, also when the plan is the approved error dict of a failed
    draft. *)
Theorem planner_plan_is_notified :
  forall (b : BaseAgent.t) (g weights : value) (input_data : dict)
         (w : World) (ex : ExecutorAgent.t) (w2 : World),
    truthy (ExecutorAgent.telegram_bot ex) = true ->
    exists d w1 plan r w3,
      PlannerAgent.execute (PlannerAgent.mk b g ConflictDetector.new weights)
                           input_data w = (Ok d, w1) /\
      lookup "final_plan" d = Some (VDict plan) /\
      ExecutorAgent.execute ex (VDict plan) w2 = (Ok r, w3) /\
      lookup "status" r = Some (VStr "success") /\
      lookup "notifications_sent" r = Some (VInt 1).
Proof.
  intros b g weights input_data w ex w2 Hbot.
  destruct (planner_execute_report b g weights input_data w) as [w1 [H _]].
  match type of H with
  | _ = (Ok ?d, _) =>
      match d with
      | context [("final_plan", VDict ?p)] =>
          destruct (executor_execute_report ex (VDict p) w2) as [w3 Hex];
          exists d, w1, p
      end
  end.
  do 2 eexists. split; [exact H|]. split; [reflexivity|].
  split; [exact Hex|]. split; [reflexivity|].
  cbn [execution_report lookup String.eqb Ascii.eqb Bool.eqb].
  f_equal. apply notifications_one. split; [exact Hbot|].
  eexists. exists 0. split; [reflexivity|].
  destruct (gemini w (gemini_calls w)); reflexivity.
Qed.

Lemma planner_plan_is_notified_witness :
  exists d w1 plan r w3,
    PlannerAgent.execute planner0 [] world_model_down = (Ok d, w1) /\
    lookup "final_plan" d = Some (VDict plan) /\
    ExecutorAgent.execute executor_bot (VDict plan) w1 = (Ok r, w3) /\
    lookup "notifications_sent" r = Some (VInt 1).
Proof.
  destruct (planner_plan_is_notified (base0 "PlannerAgent") gemini_pro
              PlannerAgent.default_priority_weights [] world_model_down
              executor_bot
              (snd (PlannerAgent.execute planner0 [] world_model_down))
              eq_refl)
    as [d [w1 [plan [r [w3 [H [Hf [Hex [_ Hn]]]]]]]]].
  exists d, w1, plan, r, w3.
  assert (Hw : snd (PlannerAgent.execute planner0 [] world_model_down) = w1)
    by (unfold planner0; rewrite H; reflexivity).
  rewrite Hw in Hex. auto.
Defined.

(** ** The reviewer *)

(** The whole of a reviewer run. *)
Lemma reviewer_execute_report self w :
  let n := gemini_calls w in
  let duration := times w (S (ticks w)) - times w (ticks w) in
  exists w',
    ReviewerLearnerAgent.execute self w
    = (Ok [("status", success);
           ("completed_tasks_analyzed", VInt 0);
           ("patterns_identified", VInt (answered (gemini w n)));
           ("rules_generated", VInt (answered (gemini w (S n))));
           ("feedback", feedback_text (gemini w (S (S n))));
           ("execution_time", VFloat duration)], w') /\
    gemini_calls w' = S (S (S n)) /\
    last_record w'
    = performance_record (BaseAgent.logger (ReviewerLearnerAgent.base self))
        "reviewer_execution" duration true.
Proof.
  intros n duration. subst n duration.
  unfold ReviewerLearnerAgent.execute, ReviewerLearnerAgent.execute_via,
    ReviewerLearnerAgent.execute_body,
    ReviewerLearnerAgent._fetch_completed_tasks,
    ReviewerLearnerAgent._analyze_patterns,
    ReviewerLearnerAgent._generate_rules, ReviewerLearnerAgent._store_rules,
    ReviewerLearnerAgent._generate_feedback, BaseAgent.log_performance,
    last_record, performance_record.
  run_steps.
  destruct (gemini w (gemini_calls w)); simpl;
    destruct (gemini w (S (gemini_calls w))); simpl;
    destruct (gemini w (S (S (gemini_calls w)))); simpl;
    (eexists; split; [reflexivity|]; split; [reflexivity|]; apply last_last).
Qed.

(** X15. A reviewer run never fails and sends exactly three requests to
    the language model, whatever their outcomes.  It analyses no completed
    task; it counts one pattern when the first request is answered and one
    rule when the second is, none otherwise; its feedback is the third
    answer, or a fixed apology when the third request fails. *)
Theorem reviewer_counts_answers :
  forall (self : ReviewerLearnerAgent.t) (w : World),
  exists d w',
    ReviewerLearnerAgent.execute self w = (Ok d, w') /\
    lookup "status" d = Some (VStr "success") /\
    lookup "completed_tasks_analyzed" d = Some (VInt 0) /\
    lookup "patterns_identified" d
    = Some (VInt (answered (gemini w (gemini_calls w)))) /\
    lookup "rules_generated" d
    = Some (VInt (answered (gemini w (S (gemini_calls w))))) /\
    lookup "feedback" d
    = Some (feedback_text (gemini w (S (S (gemini_calls w))))) /\
    gemini_calls w' = S (S (S (gemini_calls w))).
Proof.
  intros self w.
  destruct (reviewer_execute_report self w) as [w' [H [Hg _]]].
  do 2 eexists. split; [exact H|]. repeat split. exact Hg.
Qed.

(** ** Durations and the performance log *)

Lemma executor_execute_log self plan w :
  let duration := times w (S (ticks w)) - times w (ticks w) in
  exists w',
    ExecutorAgent.execute self plan w
    = (Ok (execution_report (notifications self plan) duration), w') /\
    last_record w'
    = performance_record (BaseAgent.logger (ExecutorAgent.base self))
        "executor_execution" duration true.
Proof.
  intros duration. subst duration.
  unfold ExecutorAgent.execute, ExecutorAgent.execute_via,
    ExecutorAgent.execute_body, ExecutorAgent._update_calendar_events,
    ExecutorAgent._update_notion_tasks, ExecutorAgent._send_notifications,
    ExecutorAgent._schedule_reminders, BaseAgent.log_performance,
    notifications, execution_report, last_record, performance_record.
  run_steps.
  destruct (truthy (ExecutorAgent.telegram_bot self)); simpl.
  - destruct (ExecutorAgent._create_plan_summary self plan); simpl;
      (eexists; split; [reflexivity|]; apply last_last).
  - eexists; split; [reflexivity|]; apply last_last.
Qed.

Lemma monotone_span w (i j : nat) :
  monotone_clock w -> (i <= j)%nat -> 0 <= times w j - times w i.
Proof. intros Hm Hij. specialize (Hm i j Hij). lia. Qed.

Lemma clock0_monotone : monotone_clock world0.
Proof. intros i j Hij. simpl. unfold clock0. lia. Qed.

(** X16. While the wall clock does not step back, the ["execution_time"]
    every agent reports is not negative. *)
Theorem execution_time_not_negative :
  forall w : World,
    monotone_clock w ->
    (forall self, exists d w' t,
        ReviewerLearnerAgent.execute self w = (Ok d, w') /\
        lookup "execution_time" d = Some (VFloat t) /\ 0 <= t) /\
    (forall self, exists d w' t,
        CollectorAgent.execute self w = (Ok d, w') /\
        lookup "execution_time" d = Some (VFloat t) /\ 0 <= t) /\
    (forall b g weights input_data, exists d w' t,
        PlannerAgent.execute (PlannerAgent.mk b g ConflictDetector.new weights)
                             input_data w = (Ok d, w') /\
        lookup "execution_time" d = Some (VFloat t) /\ 0 <= t) /\
    (forall self plan, exists d w' t,
        ExecutorAgent.execute self plan w = (Ok d, w') /\
        lookup "execution_time" d = Some (VFloat t) /\ 0 <= t).
Proof.
  intros w Hm. split; [|split; [|split]].
  - intros self. destruct (reviewer_execute_report self w) as [w' [H _]].
    do 3 eexists. split; [exact H|]. split; [reflexivity|].
    apply monotone_span; [exact Hm|lia].
  - intros self.
    destruct (collector_execute_report self w) as [o [k [w' [H [Hk _]]]]].
    do 3 eexists. split; [exact H|]. split; [reflexivity|].
    apply monotone_span; [exact Hm|lia].
  - intros b g weights input_data.
    destruct (planner_execute_report b g weights input_data w) as [w' [H _]].
    do 3 eexists. split; [exact H|]. split; [reflexivity|].
    apply monotone_span; [exact Hm|lia].
  - intros self plan. destruct (executor_execute_log self plan w) as [w' [H _]].
    do 3 eexists. split; [exact H|]. split; [reflexivity|].
    apply monotone_span; [exact Hm|lia].
Qed.

Lemma execution_time_not_negative_witness :
  exists d w' t,
    ExecutorAgent.execute executor0 approved_plan0 world0 = (Ok d, w') /\
    lookup "execution_time" d = Some (VFloat t) /\ 0 <= t.
Proof.
  destruct (execution_time_not_negative world0 clock0_monotone)
    as [_ [_ [_ H]]].
  exact (H executor0 approved_plan0).
Defined.

(** The precondition matters: the duration is a difference of two readings
    of the wall clock, and is negative when the clock was set back. *)
Example execution_time_negative_when_clock_steps_back :
  lookup "execution_time"
    (match fst (ExecutorAgent.execute executor0 approved_plan0
                  (mk_world (environ world0) (files world0) (cron world0)
                            (fun n => 5000000 - clock0 n)
                            (gemini world0) (response_blocked world0) (http world0) 0 0 0 VNone []))
     with Ok d => d | Raise _ => [] end)
  = Some (VFloat (-1000000)).
Proof. vm_compute. reflexivity. Qed.

(** X17. Every run of an agent ends by logging its performance: the last
    record of the log is the one [log_performance] emits for the agent's
    operation, with Success True and the very duration the result carries
    as ["execution_time"]. *)
Theorem performance_log_matches_result :
  forall w : World,
    (forall self, exists d w' t,
        ReviewerLearnerAgent.execute self w = (Ok d, w') /\
        lookup "execution_time" d = Some (VFloat t) /\
        last_record w'
        = performance_record (BaseAgent.logger (ReviewerLearnerAgent.base self))
                             "reviewer_execution" t true) /\
    (forall self, exists d w' t,
        CollectorAgent.execute self w = (Ok d, w') /\
        lookup "execution_time" d = Some (VFloat t) /\
        last_record w'
        = performance_record (BaseAgent.logger (CollectorAgent.base self))
                             "collector_execution" t true) /\
    (forall b g weights input_data, exists d w' t,
        PlannerAgent.execute (PlannerAgent.mk b g ConflictDetector.new weights)
                             input_data w = (Ok d, w') /\
        lookup "execution_time" d = Some (VFloat t) /\
        last_record w'
        = performance_record (BaseAgent.logger b) "planner_execution" t true) /\
    (forall self plan, exists d w' t,
        ExecutorAgent.execute self plan w = (Ok d, w') /\
        lookup "execution_time" d = Some (VFloat t) /\
        last_record w'
        = performance_record (BaseAgent.logger (ExecutorAgent.base self))
                             "executor_execution" t true).
Proof.
  intros w. split; [|split; [|split]].
  - intros self. destruct (reviewer_execute_report self w) as [w' [H [_ Hl]]].
    do 3 eexists. split; [exact H|]. split; [reflexivity|exact Hl].
  - intros self.
    destruct (collector_execute_report self w)
      as [o [k [w' [H [_ [_ [_ [_ [_ Hl]]]]]]]]].
    do 3 eexists. split; [exact H|]. split; [reflexivity|exact Hl].
  - intros b g weights input_data.
    destruct (planner_execute_report b g weights input_data w)
      as [w' [H [_ Hl]]].
    do 3 eexists. split; [exact H|]. split; [reflexivity|exact Hl].
  - intros self plan.
    destruct (executor_execute_log self plan w) as [w' [H Hl]].
    do 3 eexists. split; [exact H|]. split; [reflexivity|exact Hl].
Qed.

(** ** The orchestrator, agent by agent *)

Ltac unfold_run_agent :=
  unfold AutonomousTaskPlanner.run_agent_via, AutonomousTaskPlanner.lift,
    AutonomousTaskPlanner.await, announced, bind, ret, raise, of_res, emit,
    getitem in *.

(** X18. [run_agent] on a name that is none of the four raises
    [ValueError] with the name in its message, after logging the request
    and without awaiting any agent. *)
Theorem run_agent_unknown_name :
  forall (re : ReviewerLearnerAgent.t -> M World dict)
         (ce : CollectorAgent.t -> M World dict)
         (pe : PlannerAgent.t -> dict -> M World dict)
         (ee : ExecutorAgent.t -> value -> M World dict)
         (self : AutonomousTaskPlanner.t) (name : string)
         (r : AutonomousTaskPlanner.Run),
    name <> "reviewer" -> name <> "collector" ->
    name <> "planner" -> name <> "executor" ->
    AutonomousTaskPlanner.run_agent_via re ce pe ee self name r
    = (Raise (ValueError ("Unknown agent: " ++ name)),
       AutonomousTaskPlanner.mk_run
         (announced self name (AutonomousTaskPlanner.world r))
         (AutonomousTaskPlanner.awaited r)).
Proof.
  intros re ce pe ee self name r H1 H2 H3 H4.
  unfold_run_agent. history_step.
  apply String.eqb_neq in H1, H2, H3, H4.
  rewrite H1, H2, H3, H4. reflexivity.
Qed.

Lemma run_agent_unknown_name_witness :
  fst (AutonomousTaskPlanner.run_agent (system0 planner0) "cleaner"
         (AutonomousTaskPlanner.mk_run world0 []))
  = Raise (ValueError "Unknown agent: cleaner").
Proof.
  unfold AutonomousTaskPlanner.run_agent.
  rewrite (run_agent_unknown_name ReviewerLearnerAgent.execute
             CollectorAgent.execute PlannerAgent.execute ExecutorAgent.execute
             (system0 planner0) "cleaner"
             (AutonomousTaskPlanner.mk_run world0 []));
    [reflexivity | discriminate | discriminate | discriminate | discriminate].
Defined.

(** X19. [run_agent "planner"] does not look at what the collector
    returned: once the collector returns a dict, be it its error result,
    the planner is awaited on that dict, and [run_agent] ends as the planner
    does. *)
Theorem run_agent_planner_is_not_gated :
  forall (re : ReviewerLearnerAgent.t -> M World dict)
         (ce : CollectorAgent.t -> M World dict)
         (pe : PlannerAgent.t -> dict -> M World dict)
         (ee : ExecutorAgent.t -> value -> M World dict)
         (self : AutonomousTaskPlanner.t) (r : AutonomousTaskPlanner.Run)
         (c : dict) (w1 : World),
    ce (AutonomousTaskPlanner.collector_agent self)
       (announced self "planner" (AutonomousTaskPlanner.world r)) = (Ok c, w1) ->
    AutonomousTaskPlanner.run_agent_via re ce pe ee self "planner" r
    = (match fst (pe (AutonomousTaskPlanner.planner_agent self) c w1) with
       | Ok p => Ok (VDict p)
       | Raise e => Raise e
       end,
       AutonomousTaskPlanner.mk_run
         (snd (pe (AutonomousTaskPlanner.planner_agent self) c w1))
         ((AutonomousTaskPlanner.awaited r
             ++ [AutonomousTaskPlanner.AwaitCollector])
            ++ [AutonomousTaskPlanner.AwaitPlanner c])).
Proof.
  intros re ce pe ee self r c w1 Hc.
  unfold_run_agent.
  change ("planner" =? "reviewer")%string with false.
  change ("planner" =? "collector")%string with false.
  change ("planner" =? "planner")%string with true.
  cbv beta iota. history_step. cbn [fst snd] in Hc.
  rewrite Hc. history_step.
  destruct (pe (AutonomousTaskPlanner.planner_agent self) c w1) as [[p|e] w2];
    reflexivity.
Qed.

Lemma run_agent_planner_is_not_gated_witness :
  exists c,
    AutonomousTaskPlanner.awaited
      (snd (AutonomousTaskPlanner.run_agent_via
              ReviewerLearnerAgent.execute
              (fun _ => ret (error_result (mk_exn "OSError" "disk full")))
              PlannerAgent.execute ExecutorAgent.execute
              (system0 planner0) "planner"
              (AutonomousTaskPlanner.mk_run world0 [])))
    = [AutonomousTaskPlanner.AwaitCollector;
       AutonomousTaskPlanner.AwaitPlanner c] /\
    lookup "status" c = Some (VStr "error").
Proof.
  eexists.
  rewrite (run_agent_planner_is_not_gated ReviewerLearnerAgent.execute
             (fun _ => ret (error_result (mk_exn "OSError" "disk full")))
             PlannerAgent.execute ExecutorAgent.execute
             (system0 planner0) (AutonomousTaskPlanner.mk_run world0 [])
             _ _ eq_refl).
  split; reflexivity.
Defined.

(** The executor branch of [run_agent] on an approved plan. *)
Lemma run_agent_executor_approved :
  forall (re : ReviewerLearnerAgent.t -> M World dict)
         (ce : CollectorAgent.t -> M World dict)
         (pe : PlannerAgent.t -> dict -> M World dict)
         (ee : ExecutorAgent.t -> value -> M World dict)
         (self : AutonomousTaskPlanner.t) (r : AutonomousTaskPlanner.Run)
         (c p e : dict) (final_plan : value) (w1 w2 w3 : World),
    ce (AutonomousTaskPlanner.collector_agent self)
       (announced self "executor" (AutonomousTaskPlanner.world r)) = (Ok c, w1) ->
    pe (AutonomousTaskPlanner.planner_agent self) c w1 = (Ok p, w2) ->
    truthy (get_default "plan_approved" VNone p) = true ->
    lookup "final_plan" p = Some final_plan ->
    ee (AutonomousTaskPlanner.executor_agent self) final_plan w2 = (Ok e, w3) ->
    AutonomousTaskPlanner.run_agent_via re ce pe ee self "executor" r
    = (Ok (VDict e),
       AutonomousTaskPlanner.mk_run w3
         (((AutonomousTaskPlanner.awaited r
              ++ [AutonomousTaskPlanner.AwaitCollector])
             ++ [AutonomousTaskPlanner.AwaitPlanner c])
            ++ [AutonomousTaskPlanner.AwaitExecutor final_plan])).
Proof.
  intros re ce pe ee self r c p e final_plan w1 w2 w3 Hc Hp Ha Hf He.
  unfold_run_agent.
  change ("executor" =? "reviewer")%string with false.
  change ("executor" =? "collector")%string with false.
  change ("executor" =? "planner")%string with false.
  change ("executor" =? "executor")%string with true.
  cbv beta iota. history_step. cbn [fst snd] in Hc.
  rewrite Hc. history_step. rewrite Hp. history_step. rewrite Ha, Hf.
  history_step. rewrite He. reflexivity.
Qed.

(** X20. [run_agent "executor"], when the planner's result has a true
    ["plan_approved"] and a ["final_plan"], awaits the executor on that
    final plan, after the collector and the planner, and returns the
    executor's dict. *)
Theorem run_agent_executor_runs_approved_plan :
  forall (re : ReviewerLearnerAgent.t -> M World dict)
         (ce : CollectorAgent.t -> M World dict)
         (pe : PlannerAgent.t -> dict -> M World dict)
         (ee : ExecutorAgent.t -> value -> M World dict)
         (self : AutonomousTaskPlanner.t) (r : AutonomousTaskPlanner.Run)
         (c p e : dict) (final_plan : value) (w1 w2 w3 : World),
    ce (AutonomousTaskPlanner.collector_agent self)
       (announced self "executor" (AutonomousTaskPlanner.world r)) = (Ok c, w1) ->
    pe (AutonomousTaskPlanner.planner_agent self) c w1 = (Ok p, w2) ->
    truthy (get_default "plan_approved" VNone p) = true ->
    lookup "final_plan" p = Some final_plan ->
    ee (AutonomousTaskPlanner.executor_agent self) final_plan w2 = (Ok e, w3) ->
    AutonomousTaskPlanner.run_agent_via re ce pe ee self "executor" r
    = (Ok (VDict e),
       AutonomousTaskPlanner.mk_run w3
         (((AutonomousTaskPlanner.awaited r
              ++ [AutonomousTaskPlanner.AwaitCollector])
             ++ [AutonomousTaskPlanner.AwaitPlanner c])
            ++ [AutonomousTaskPlanner.AwaitExecutor final_plan])).
Proof. exact run_agent_executor_approved. Qed.

Lemma run_agent_executor_runs_approved_plan_witness :
  exists e,
    fst (AutonomousTaskPlanner.run_agent (system0 planner0) "executor"
           (AutonomousTaskPlanner.mk_run world0 [])) = Ok (VDict e) /\
    lookup "status" e = Some (VStr "success").
Proof.
  unfold AutonomousTaskPlanner.run_agent.
  eexists.
  erewrite (run_agent_executor_runs_approved_plan
              ReviewerLearnerAgent.execute CollectorAgent.execute
              PlannerAgent.execute ExecutorAgent.execute
              (system0 planner0) (AutonomousTaskPlanner.mk_run world0 []));
    [ | vm_compute; reflexivity | vm_compute; reflexivity | reflexivity
      | reflexivity | vm_compute; reflexivity ].
  split; reflexivity.
Defined.

(** X21. [run_agent "executor"], when the planner's result has a true
    ["plan_approved"] but no ["final_plan"], raises [KeyError] and does not
    await the executor. *)
Theorem run_agent_executor_needs_final_plan :
  forall (re : ReviewerLearnerAgent.t -> M World dict)
         (ce : CollectorAgent.t -> M World dict)
         (pe : PlannerAgent.t -> dict -> M World dict)
         (ee : ExecutorAgent.t -> value -> M World dict)
         (self : AutonomousTaskPlanner.t) (r : AutonomousTaskPlanner.Run)
         (c p : dict) (w1 w2 : World),
    ce (AutonomousTaskPlanner.collector_agent self)
       (announced self "executor" (AutonomousTaskPlanner.world r)) = (Ok c, w1) ->
    pe (AutonomousTaskPlanner.planner_agent self) c w1 = (Ok p, w2) ->
    truthy (get_default "plan_approved" VNone p) = true ->
    lookup "final_plan" p = None ->
    AutonomousTaskPlanner.run_agent_via re ce pe ee self "executor" r
    = (Raise (KeyError "final_plan"),
       AutonomousTaskPlanner.mk_run w2
         ((AutonomousTaskPlanner.awaited r
             ++ [AutonomousTaskPlanner.AwaitCollector])
            ++ [AutonomousTaskPlanner.AwaitPlanner c])).
Proof.
  intros re ce pe ee self r c p w1 w2 Hc Hp Ha Hf.
  unfold_run_agent.
  change ("executor" =? "reviewer")%string with false.
  change ("executor" =? "collector")%string with false.
  change ("executor" =? "planner")%string with false.
  change ("executor" =? "executor")%string with true.
  cbv beta iota. history_step. cbn [fst snd] in Hc.
  rewrite Hc. history_step. rewrite Hp. history_step. rewrite Ha, Hf.
  reflexivity.
Qed.

Lemma run_agent_executor_needs_final_plan_witness :
  fst (AutonomousTaskPlanner.run_agent_via
         ReviewerLearnerAgent.execute CollectorAgent.execute
         (fun _ _ => ret [("status", VStr "success");
                          ("plan_approved", VBool true)])
         ExecutorAgent.execute
         (system0 planner0) "executor"
         (AutonomousTaskPlanner.mk_run world0 []))
  = Raise (KeyError "final_plan").
Proof.
  erewrite (run_agent_executor_needs_final_plan
              ReviewerLearnerAgent.execute CollectorAgent.execute
              (fun _ _ => ret [("status", VStr "success");
                               ("plan_approved", VBool true)])
              ExecutorAgent.execute
              (system0 planner0) (AutonomousTaskPlanner.mk_run world0 [])).
  - reflexivity.
  - vm_compute; reflexivity.
  - reflexivity.
  - reflexivity.
  - reflexivity.
Defined.

(** ** The full workflow *)

Ltac unfold_workflow :=
  unfold AutonomousTaskPlanner.run_full_workflow_via,
    AutonomousTaskPlanner.lift, AutonomousTaskPlanner.await, workflow_started,
    bind, of_res, ret, getitem, emit, now in *.

(** X22. Whenever the full workflow returns, its ["workflow_status"] is
    "completed", also when a stage returned an error result or was left
    out, and its ["results"] hold one entry per stage awaited, in the order
    awaited: "collector", then "planner", then "executor". *)
Theorem workflow_results_list_stages_run :
  forall (ce : CollectorAgent.t -> M World dict)
         (pe : PlannerAgent.t -> dict -> M World dict)
         (ee : ExecutorAgent.t -> value -> M World dict)
         (self : AutonomousTaskPlanner.t) (w : World)
         (d : dict) (r' : AutonomousTaskPlanner.Run),
    AutonomousTaskPlanner.run_full_workflow_via ce pe ee self
      (AutonomousTaskPlanner.mk_run w []) = (Ok d, r') ->
    lookup "workflow_status" d = Some (VStr "completed") /\
    exists results,
      lookup "results" d = Some (VDict results) /\
      map fst results = map stage_key (AutonomousTaskPlanner.awaited r').
Proof.
  intros ce pe ee self w d r'.
  unfold_workflow. history_step.
  destruct (ce (AutonomousTaskPlanner.collector_agent self) _)
    as [[c|e] w1]; history_step; [|intros [=]].
  destruct (lookup "status" c) as [st|]; history_step; [|intros [=]].
  destruct (str_eq st "success"); history_step;
    [|intros [= <- <-]; split; [reflexivity|eexists; split; reflexivity]].
  destruct (pe (AutonomousTaskPlanner.planner_agent self) c w1)
    as [[p|e] w2]; history_step; [|intros [=]].
  destruct (lookup "status" p) as [pst|]; history_step; [|intros [=]].
  destruct (str_eq pst "success"); history_step;
    [|intros [= <- <-]; split; [reflexivity|eexists; split; reflexivity]].
  destruct (lookup "plan_approved" p) as [a|]; history_step; [|intros [=]].
  destruct (truthy a); history_step;
    [|intros [= <- <-]; split; [reflexivity|eexists; split; reflexivity]].
  destruct (lookup "final_plan" p) as [fp|]; history_step; [|intros [=]].
  destruct (ee (AutonomousTaskPlanner.executor_agent self) fp w2)
    as [[er|e] w3]; history_step; [|intros [=]].
  intros [= <- <-]; split; [reflexivity|eexists; split; reflexivity].
Qed.

Lemma workflow_results_list_stages_run_witness :
  exists d r' results,
    AutonomousTaskPlanner.run_full_workflow_via
      CollectorAgent.execute PlannerAgent.execute ExecutorAgent.execute
      (system0 planner_broken) (AutonomousTaskPlanner.mk_run world0 [])
    = (Ok d, r') /\
    lookup "workflow_status" d = Some (VStr "completed") /\
    lookup "results" d = Some (VDict results) /\
    map fst results = ["collector"; "planner"].
Proof.
  destruct (AutonomousTaskPlanner.run_full_workflow_via
              CollectorAgent.execute PlannerAgent.execute ExecutorAgent.execute
              (system0 planner_broken) (AutonomousTaskPlanner.mk_run world0 []))
    as [[d|e] r'] eqn:Hrun; [|vm_compute in Hrun; discriminate Hrun].
  destruct (workflow_results_list_stages_run _ _ _ _ _ _ _ Hrun)
    as [Hs [results [Hr Hk]]].
  exists d, r', results. split; [reflexivity|]. split; [exact Hs|].
  split; [exact Hr|]. rewrite Hk.
  vm_compute in Hrun. injection Hrun as _ <-. reflexivity.
Defined.

(** X23. The workflow has no handler of its own around the collector: when
    the collector's [execute] raises, the workflow raises the same
    exception and awaits nothing else. *)
Theorem workflow_propagates_collector_exception :
  forall (ce : CollectorAgent.t -> M World dict)
         (pe : PlannerAgent.t -> dict -> M World dict)
         (ee : ExecutorAgent.t -> value -> M World dict)
         (self : AutonomousTaskPlanner.t) (w w1 : World) (e : raised),
    ce (AutonomousTaskPlanner.collector_agent self) (workflow_started self w)
    = (Raise e, w1) ->
    AutonomousTaskPlanner.run_full_workflow_via ce pe ee self
      (AutonomousTaskPlanner.mk_run w [])
    = (Raise e,
       AutonomousTaskPlanner.mk_run w1 [AutonomousTaskPlanner.AwaitCollector]).
Proof.
  intros ce pe ee self w w1 e Hc.
  unfold_workflow. history_step. cbn [fst snd] in Hc. rewrite Hc. reflexivity.
Qed.

Lemma workflow_propagates_collector_exception_witness :
  fst (AutonomousTaskPlanner.run_full_workflow_via
         (fun _ => raise (mk_exn "RuntimeError" "collector unavailable"))
         PlannerAgent.execute ExecutorAgent.execute
         (system0 planner0) (AutonomousTaskPlanner.mk_run world0 []))
  = Raise (mk_exn "RuntimeError" "collector unavailable").
Proof.
  rewrite (workflow_propagates_collector_exception
             (fun _ => raise (mk_exn "RuntimeError" "collector unavailable"))
             PlannerAgent.execute ExecutorAgent.execute
             (system0 planner0) world0 _ _ eq_refl).
  reflexivity.
Defined.

(** X24. A collector result without a ["status"] key makes the workflow
    raise [KeyError]: the planner is not awaited and no workflow result is
    returned. *)
Theorem workflow_needs_collector_status :
  forall (ce : CollectorAgent.t -> M World dict)
         (pe : PlannerAgent.t -> dict -> M World dict)
         (ee : ExecutorAgent.t -> value -> M World dict)
         (self : AutonomousTaskPlanner.t) (w w1 : World) (c : dict),
    ce (AutonomousTaskPlanner.collector_agent self) (workflow_started self w)
    = (Ok c, w1) ->
    lookup "status" c = None ->
    AutonomousTaskPlanner.run_full_workflow_via ce pe ee self
      (AutonomousTaskPlanner.mk_run w [])
    = (Raise (KeyError "status"),
       AutonomousTaskPlanner.mk_run w1 [AutonomousTaskPlanner.AwaitCollector]).
Proof.
  intros ce pe ee self w w1 c Hc Hs.
  unfold_workflow. history_step. cbn [fst snd] in Hc. rewrite Hc.
  history_step. rewrite Hs. reflexivity.
Qed.

Lemma workflow_needs_collector_status_witness :
  fst (AutonomousTaskPlanner.run_full_workflow_via
         (fun _ => ret [("calendar_events", VInt 0)])
         PlannerAgent.execute ExecutorAgent.execute
         (system0 planner0) (AutonomousTaskPlanner.mk_run world0 []))
  = Raise (KeyError "status").
Proof.
  rewrite (workflow_needs_collector_status
             (fun _ => ret [("calendar_events", VInt 0)])
             PlannerAgent.execute ExecutorAgent.execute
             (system0 planner0) world0 _ _ eq_refl eq_refl).
  reflexivity.
Defined.

(** ** The module's own agents, end to end *)

(** X25. With the module's own agents the full workflow always runs its
    three stages: whatever the collaborators do and whatever the planner's
    detector finds, it awaits the collector, the planner on the collector's
    result and the executor on the planner's final plan, every stage
    reports "success", and the workflow returns "completed" with the three
    results. *)
Theorem own_workflow_runs_every_stage :
  forall (config : value) (logger : string)
         (rv : ReviewerLearnerAgent.t) (co : CollectorAgent.t)
         (b : BaseAgent.t) (g weights : value) (detect : dict -> list value)
         (ex : ExecutorAgent.t) (w : World),
  exists d r' c p plan e,
    AutonomousTaskPlanner.run_full_workflow
      (AutonomousTaskPlanner.mk config logger rv co
         (PlannerAgent.mk b g (fun draft => ret (detect draft)) weights) ex)
      (AutonomousTaskPlanner.mk_run w []) = (Ok d, r') /\
    AutonomousTaskPlanner.awaited r'
    = [AutonomousTaskPlanner.AwaitCollector;
       AutonomousTaskPlanner.AwaitPlanner c;
       AutonomousTaskPlanner.AwaitExecutor (VDict plan)] /\
    lookup "workflow_status" d = Some (VStr "completed") /\
    lookup "results" d
    = Some (VDict [("collector", VDict c); ("planner", VDict p);
                   ("executor", VDict e)]) /\
    lookup "status" c = Some (VStr "success") /\
    lookup "status" p = Some (VStr "success") /\
    lookup "final_plan" p = Some (VDict plan) /\
    lookup "approved" plan = Some (VBool true) /\
    lookup "status" e = Some (VStr "success").
Proof.
  intros config logger rv co b g weights detect ex w.
  set (self := AutonomousTaskPlanner.mk config logger rv co
                 (PlannerAgent.mk b g (fun draft => ret (detect draft)) weights)
                 ex).
  destruct (collector_execute_succeeds co (workflow_started self w))
    as [c [w1 [Hc Hcs]]].
  destruct (planner_execute_approves b g weights detect c w1)
    as [p [w2 [Hp [Hps [Hpa [plan [Hfp Hap]]]]]]].
  destruct (executor_execute_report ex (VDict plan) w2) as [w3 He].
  unfold AutonomousTaskPlanner.run_full_workflow.
  unfold_workflow. subst self. history_step.
  cbn [AutonomousTaskPlanner.collector_agent AutonomousTaskPlanner.planner_agent
       AutonomousTaskPlanner.executor_agent AutonomousTaskPlanner.logger
       fst snd] in *.
  rewrite Hc. history_step. rewrite Hcs. history_step.
  change (str_eq success "success") with true. cbv beta iota. history_step.
  rewrite Hp. history_step. rewrite Hps. history_step.
  change (str_eq success "success") with true. cbv beta iota.
  rewrite Hpa. cbn [truthy]. cbv beta iota. rewrite Hfp. history_step.
  rewrite He. history_step.
  do 6 eexists. split; [reflexivity|].
  repeat split; auto.
Qed.

(** X26. With the module's own agents [run_agent "executor"] never returns
    [None]: the planner always reports an approved plan, so the executor is
    always awaited and [run_agent] returns its success report. *)
Theorem own_run_agent_executor_returns_report :
  forall (config : value) (logger : string)
         (rv : ReviewerLearnerAgent.t) (co : CollectorAgent.t)
         (b : BaseAgent.t) (g weights : value) (detect : dict -> list value)
         (ex : ExecutorAgent.t) (r : AutonomousTaskPlanner.Run),
  exists (e : dict) (r' : AutonomousTaskPlanner.Run) (c plan : dict),
    AutonomousTaskPlanner.run_agent
      (AutonomousTaskPlanner.mk config logger rv co
         (PlannerAgent.mk b g (fun draft => ret (detect draft)) weights) ex)
      "executor" r = (Ok (VDict e), r') /\
    lookup "status" e = Some (VStr "success") /\
    AutonomousTaskPlanner.awaited r'
    = (((AutonomousTaskPlanner.awaited r
           ++ [AutonomousTaskPlanner.AwaitCollector])
          ++ [AutonomousTaskPlanner.AwaitPlanner c])
         ++ [AutonomousTaskPlanner.AwaitExecutor (VDict plan)])%list.
Proof.
  intros config logger rv co b g weights detect ex r.
  set (self := AutonomousTaskPlanner.mk config logger rv co
                 (PlannerAgent.mk b g (fun draft => ret (detect draft)) weights)
                 ex).
  destruct (collector_execute_succeeds co
              (announced self "executor" (AutonomousTaskPlanner.world r)))
    as [c [w1 [Hc _]]].
  destruct (planner_execute_approves b g weights detect c w1)
    as [p [w2 [Hp [_ [Hpa [plan [Hfp _]]]]]]].
  destruct (executor_execute_report ex (VDict plan) w2) as [w3 He].
  do 4 eexists. unfold AutonomousTaskPlanner.run_agent.
  erewrite (run_agent_executor_approved ReviewerLearnerAgent.execute
              CollectorAgent.execute PlannerAgent.execute ExecutorAgent.execute
              self r);
    [ | exact Hc | exact Hp | unfold get_default; rewrite Hpa; reflexivity
      | exact Hfp | exact He ].
  split; [reflexivity|]. split; reflexivity.
Qed.

(** ** Construction of the orchestrator *)

Ltac unfold_system_init :=
  unfold AutonomousTaskPlanner.__init__, AutonomousTaskPlanner._load_config,
    AutonomousTaskPlanner._setup_cron_jobs.

(** X27. When the configuration file cannot be read, constructing the
    orchestrator raises [AttributeError]: the handler of [_load_config] uses
    the logger before [__init__] has set it, so the empty configuration it
    would fall back to is never returned, and no agent is constructed. *)
Theorem unreadable_config_fails_construction :
  forall (config_path : string) (w : World),
    files w config_path = None ->
    AutonomousTaskPlanner.__init__ config_path w
    = (Raise (AttributeError
                "'AutonomousTaskPlanner' object has no attribute 'logger'"), w).
Proof.
  intros config_path w Hf.
  unfold_system_init. unfold bind. rewrite Hf. reflexivity.
Qed.

Lemma unreadable_config_fails_construction_witness :
  fst (AutonomousTaskPlanner.main (AutonomousTaskPlanner.mk_args None false)
         (AutonomousTaskPlanner.mk_run world_no_config []))
  = Raise (AttributeError
             "'AutonomousTaskPlanner' object has no attribute 'logger'").
Proof.
  unfold AutonomousTaskPlanner.main, AutonomousTaskPlanner.lift, bind.
  cbn [AutonomousTaskPlanner.world].
  rewrite (unreadable_config_fails_construction "config.json" world_no_config
             eq_refl).
  reflexivity.
Defined.

Ltac with_key Henv Hkey :=
  rewrite Henv; cbn [truthy];
  match goal with
  | |- context [negb (?k =? EmptyString)%string] =>
      change (negb (k =? EmptyString)%string) with (truthy (VStr k));
      rewrite (truthy_key k Hkey)
  end; simpl.

(** What the four constructors leave of the world when they succeed: the
    environment and the crontab's fate are as before. *)
Lemma reviewer_init_frame config w key :
  env_lookup "GEMINI_API_KEY" (environ w) = Some key ->
  key <> EmptyString ->
  exists self w',
    ReviewerLearnerAgent.__init__ config w = (Ok self, w') /\
    environ w' = environ w /\ cron w' = cron w.
Proof.
  intros Henv Hkey. unfold_init. run_steps. with_key Henv Hkey.
  do 2 eexists. split; [reflexivity|]. split; reflexivity.
Qed.

Lemma collector_init_frame config w key :
  env_lookup "GEMINI_API_KEY" (environ w) = Some key ->
  key <> EmptyString ->
  exists self w',
    CollectorAgent.__init__ config w = (Ok self, w') /\
    environ w' = environ w /\ cron w' = cron w.
Proof.
  intros Henv Hkey. unfold_init. run_steps. with_key Henv Hkey.
  do 2 eexists. split; [reflexivity|]. split; reflexivity.
Qed.

Lemma planner_init_frame cfg w key :
  env_lookup "GEMINI_API_KEY" (environ w) = Some key ->
  key <> EmptyString ->
  exists self w',
    PlannerAgent.__init__ (VDict cfg) w = (Ok self, w') /\
    PlannerAgent.conflict_detector self = ConflictDetector.new /\
    environ w' = environ w /\ cron w' = cron w.
Proof.
  intros Henv Hkey. unfold_init. run_steps. with_key Henv Hkey.
  do 2 eexists. split; [reflexivity|]. repeat split.
Qed.

Lemma executor_init_frame config w :
  exists self w',
    ExecutorAgent.__init__ config w = (Ok self, w') /\
    ExecutorAgent.telegram_bot self
    = (if truthy (env_value "TELEGRAM_BOT_TOKEN" w)
       then VDict [("token", env_value "TELEGRAM_BOT_TOKEN" w)]
       else VNone) /\
    cron w' = cron w.
Proof.
  unfold_init. unfold env_value. run_steps.
  destruct (truthy match env_lookup "TELEGRAM_BOT_TOKEN" (environ w) with
                   | Some v => VStr v
                   | None => VNone
                   end); simpl;
    (do 2 eexists; split; [reflexivity|]; split; reflexivity).
Qed.

Lemma _setup_cron_jobs_record logger w :
  exists w',
    AutonomousTaskPlanner._setup_cron_jobs logger w = (Ok tt, w') /\
    last_record w' = cron_record logger (cron w).
Proof.
  unfold AutonomousTaskPlanner._setup_cron_jobs, last_record, cron_record, emit.
  destruct (cron w); (eexists; split; [reflexivity|]; apply last_last).
Qed.

(** X28. With a configuration file that holds a JSON object and a non-empty
    language-model key, the orchestrator is constructed whatever else is
    missing: the notifier is left unconfigured when its token is absent or
    empty, and a failure to write the crontab is only logged, at ERROR
    level, as the last record of the construction. *)
Theorem orchestrator_construction_needs_config_and_key :
  forall (config_path : string) (w : World) (cfg : dict) (key : string),
    files w config_path = Some (VDict cfg) ->
    env_lookup "GEMINI_API_KEY" (environ w) = Some key ->
    key <> EmptyString ->
    exists sys w',
      AutonomousTaskPlanner.__init__ config_path w = (Ok sys, w') /\
      AutonomousTaskPlanner.config sys = VDict cfg /\
      PlannerAgent.conflict_detector (AutonomousTaskPlanner.planner_agent sys)
      = ConflictDetector.new /\
      ExecutorAgent.telegram_bot (AutonomousTaskPlanner.executor_agent sys)
      = (if truthy (env_value "TELEGRAM_BOT_TOKEN" w)
         then VDict [("token", env_value "TELEGRAM_BOT_TOKEN" w)]
         else VNone) /\
      last_record w' = cron_record "AutonomousTaskPlanner" (cron w).
Proof.
  intros config_path w cfg key Hf Henv Hkey.
  destruct (reviewer_init_frame (VDict cfg) w key Henv Hkey)
    as [rv [w1 [Hrv [He1 Hc1]]]].
  rewrite <- He1 in Henv.
  destruct (collector_init_frame (VDict cfg) w1 key Henv Hkey)
    as [co [w2 [Hco [He2 Hc2]]]].
  rewrite <- He2 in Henv.
  destruct (planner_init_frame cfg w2 key Henv Hkey)
    as [pl [w3 [Hpl [Hdet [He3 Hc3]]]]].
  destruct (executor_init_frame (VDict cfg) w3) as [ex [w4 [Hex [Hbot Hc4]]]].
  destruct (_setup_cron_jobs_record "AutonomousTaskPlanner" w4)
    as [w5 [Hcron Hlast]].
  exists (AutonomousTaskPlanner.mk (VDict cfg) "AutonomousTaskPlanner"
                                    rv co pl ex), w5.
  split.
  - unfold AutonomousTaskPlanner.__init__.
    rewrite (bind_ok _ _ w (VDict cfg) w)
      by (unfold AutonomousTaskPlanner._load_config; rewrite Hf; reflexivity).
    rewrite (bind_ok _ _ _ _ _ Hrv), (bind_ok _ _ _ _ _ Hco),
      (bind_ok _ _ _ _ _ Hpl), (bind_ok _ _ _ _ _ Hex),
      (bind_ok _ _ _ _ _ Hcron).
    reflexivity.
  - split; [reflexivity|]. split; [exact Hdet|]. split.
    + cbn [AutonomousTaskPlanner.executor_agent]. rewrite Hbot.
      unfold env_value. rewrite He3, He2, He1. reflexivity.
    + rewrite Hlast, Hc4, Hc3, Hc2, Hc1. reflexivity.
Qed.

Lemma orchestrator_construction_needs_config_and_key_witness :
  exists sys w',
    AutonomousTaskPlanner.__init__ "config.json" world_no_cron = (Ok sys, w') /\
    ExecutorAgent.telegram_bot (AutonomousTaskPlanner.executor_agent sys)
    = VNone /\
    last_record w'
    = mk_log "AutonomousTaskPlanner" ERROR "Failed to setup cron jobs: {e}"
             [VStr "crontab: command not found"].
Proof.
  destruct (orchestrator_construction_needs_config_and_key "config.json"
              world_no_cron [] "g-key" eq_refl eq_refl)
    as [sys [w' [H [_ [_ [Hb Hl]]]]]]; [discriminate|].
  exists sys, w'. auto.
Defined.

(** X29. A configuration file whose JSON document is not an object (an
    array, a number, ...) makes the construction of the orchestrator fail:
    the reviewer and the collector are built, then [PlannerAgent.__init__]
    raises [AttributeError] on [config.get]. *)
Theorem non_object_config_fails_construction :
  forall (config_path : string) (w : World) (config : value) (key : string),
    files w config_path = Some config ->
    (forall cfg, config <> VDict cfg) ->
    env_lookup "GEMINI_API_KEY" (environ w) = Some key ->
    key <> EmptyString ->
    exists w',
      AutonomousTaskPlanner.__init__ config_path w
      = (Raise (no_attribute_get config), w') /\
      ticks w' = S (S (S (ticks w))).
Proof.
  intros config_path w config key Hf Hc Henv Hkey.
  unfold_system_init. unfold_init.
  unfold bind at 1. rewrite Hf.
  run_steps. repeat with_key Henv Hkey.
  destruct config; try (eexists; split; reflexivity).
  exfalso. eapply Hc. reflexivity.
Qed.

Lemma non_object_config_fails_construction_witness :
  fst (AutonomousTaskPlanner.__init__ "config.json" world_config_array)
  = Raise (AttributeError "'list' object has no attribute 'get'").
Proof.
  destruct (non_object_config_fails_construction "config.json"
              world_config_array (VList []) "g-key" eq_refl)
    as [w' [H _]]; [discriminate | reflexivity | discriminate |].
  rewrite H. reflexivity.
Defined.
